(** * The fraud-review workflow of [main.py], embedded in Rocq

    [main.py] drives a bank transaction through a chain of chats with
    language-model agents (the autogen library): two assessments, a
    coordinator that names the next step, and then either an automatic
    decision, or an explanation followed by a review dialogue from whose
    transcript a verdict is read.

    The embedding keeps Python's data as the program sees it: strings are
    sequences of Unicode code points, JSON values are Python values, a
    chat message is a dict, and a failing operation raises an exception.
    The agents are outside the program: they are a [world] that answers
    every chat request with a chat history. *)

From Stdlib Require Import Ascii String.
From Stdlib Require Import List NArith ZArith QArith Bool Lia.
Import ListNotations.

Set Warnings "-register-all".

Local Open Scope N_scope.

(* ================================================================== *)
(** ** Python strings *)

(** A Python [str] is a sequence of code points. *)
Definition str := list N.

Definition str_eqb (a b : str) : bool :=
  if list_eq_dec N.eq_dec a b then true else false.

(** Continuation byte of a UTF-8 sequence: its six payload bits. *)
Definition utf8_payload (b : N) : N := N.land b 63.

(** Decoding of the UTF-8 bytes of a literal of this file into the code
    points of the Python literal it stands for. *)
Fixpoint utf8_decode (bs : list N) : str :=
  match bs with
  | [] => []
  | b :: r =>
      if b <? 128 then b :: utf8_decode r
      else if b <? 224 then
        match r with
        | b1 :: r1 =>
            (N.land b 31 * 64 + utf8_payload b1) :: utf8_decode r1
        | _ => [b]
        end
      else if b <? 240 then
        match r with
        | b1 :: b2 :: r2 =>
            (N.land b 15 * 4096 + utf8_payload b1 * 64 + utf8_payload b2)
              :: utf8_decode r2
        | _ => [b]
        end
      else
        match r with
        | b1 :: b2 :: b3 :: r3 =>
            (N.land b 7 * 262144 + utf8_payload b1 * 4096
             + utf8_payload b2 * 64 + utf8_payload b3) :: utf8_decode r3
        | _ => [b]
        end
  end.

(** [py "..."] is the Python string written as a literal. *)
Definition py (x : string) : str :=
  utf8_decode (map N_of_ascii (list_ascii_of_string x)).

(** The double quote, which a literal of this file cannot hold. *)
Definition dq : str := [34].

(** A literal in which every apostrophe stands for a double quote: the way
    JSON texts are written down in the examples. *)
Definition jtext (x : string) : str :=
  map (fun c => if c =? 39 then 34 else c) (py x).

(** [needle in hay] for two strings: [needle] occurs as a contiguous
    block. *)
Fixpoint starts_with (needle hay : str) : bool :=
  match needle, hay with
  | [], _ => true
  | _ :: _, [] => false
  | a :: n', b :: h' => (a =? b) && starts_with n' h'
  end.

Fixpoint str_in (needle hay : str) : bool :=
  starts_with needle hay ||
  match hay with
  | [] => false
  | _ :: h' => str_in needle h'
  end.

(** [str.isspace] on one code point (the characters [str.strip] removes). *)
Definition is_space (c : N) : bool :=
  ((9 <=? c) && (c <=? 13)) || ((28 <=? c) && (c <=? 32))
  || (c =? 133) || (c =? 160) || (c =? 5760)
  || ((8192 <=? c) && (c <=? 8202))
  || (c =? 8232) || (c =? 8233) || (c =? 8239) || (c =? 8287)
  || (c =? 12288).

Fixpoint lstrip (s : str) : str :=
  match s with
  | c :: r => if is_space c then lstrip r else s
  | [] => []
  end.

Definition rstrip (s : str) : str := rev (lstrip (rev s)).

(** [s.strip()] *)
Definition strip (s : str) : str := rstrip (lstrip s).

Section Unicode.

(** [str.upper] maps every code point on its own to the code points of
    its upper-case form. For ASCII that is the shift of the letters
    [a]..[z]; outside ASCII it is the table of the Unicode character
    database, which the development takes as a parameter. *)
Variable unicode_upper : N -> list N.

Definition upper_char (c : N) : list N :=
  if c <? 128 then
    if (97 <=? c) && (c <=? 122) then [c - 32] else [c]
  else unicode_upper c.

(** [s.upper()] *)
Definition upper (s : str) : str := flat_map upper_char s.

End Unicode.

(** The upper-case table on Latin-1 (code points below 256), and the
    identity above: the table used where an example needs a concrete
    one. *)
Definition latin1_upper (c : N) : list N :=
  if c =? 223 then [83; 83]
  else if c =? 181 then [924]
  else if c =? 255 then [376]
  else if (224 <=? c) && (c <=? 254) && negb (c =? 247) then [c - 32]
  else [c].

(* ================================================================== *)
(** ** Python values and exceptions *)

(** A [float]. A finite one is kept as the decimal number its shortest
    [repr] shows: the digits [d1 .. dn] (values 0..9, neither [d1] nor
    [dn] zero; no digit for zero) and the position of the decimal point,
    the value being [0.d1...dn * 10^decpt]. This is exact for the numbers
    of up to 15 significant digits that occur in JSON texts here; the
    rounding of longer literals to binary64 is not modelled. *)
Inductive pyfloat :=
| FFin (neg : bool) (digits : list N) (decpt : Z)
| FInf
| FNegInf
| FNaN.

(** The values that JSON texts denote and that the program builds. A
    [dict] keeps its keys in insertion order. *)
Inductive pyval :=
| PNone
| PBool (b : bool)
| PInt (z : Z)
| PFloat (f : pyfloat)
| PStr (s : str)
| PList (l : list pyval)
| PDict (d : list (str * pyval)).

Definition pydict := list (str * pyval).

(** The exceptions the program can run into. *)
Inductive exn :=
| JSONDecodeError
| TypeError
| KeyError
| IndexError
| AttributeError.

Inductive outcome (A : Type) :=
| Ok (a : A)
| Raise (e : exn).
Arguments Ok {A} a.
Arguments Raise {A} e.

(** [d.get(k)]: the value under [k], if any. *)
Fixpoint dict_find (d : pydict) (k : str) : option pyval :=
  match d with
  | [] => None
  | (k', v) :: r => if str_eqb k' k then Some v else dict_find r k
  end.

(** [d.get(k, default)] *)
Definition dict_get (d : pydict) (k : str) (default : pyval) : pyval :=
  match dict_find d k with
  | Some v => v
  | None => default
  end.

(** [d[k] = v]: a key already present keeps its place. *)
Fixpoint dict_set (d : pydict) (k : str) (v : pyval) : pydict :=
  match d with
  | [] => [(k, v)]
  | (k', v') :: r =>
      if str_eqb k' k then (k', v) :: r else (k', v') :: dict_set r k v
  end.

(** [x[k]] with a string key [k]: only a dict can be indexed so. *)
Definition subscript (x : pyval) (k : str) : outcome pyval :=
  match x with
  | PDict d =>
      match dict_find d k with
      | Some v => Ok v
      | None => Raise KeyError
      end
  | _ => Raise TypeError
  end.

(** [l[-1]] *)
Definition last_item {A : Type} (l : list A) : outcome A :=
  match rev l with
  | x :: _ => Ok x
  | [] => Raise IndexError
  end.

(** [l[i]] for [i >= 0] *)
Definition item {A : Type} (l : list A) (i : nat) : outcome A :=
  match nth_error l i with
  | Some x => Ok x
  | None => Raise IndexError
  end.

(** Truth value of a Python value ([bool(x)]). *)
Definition truthy (v : pyval) : bool :=
  match v with
  | PNone => false
  | PBool b => b
  | PInt z => negb (z =? 0)%Z
  | PFloat (FFin _ [] _) => false
  | PFloat _ => true
  | PStr s => negb (str_eqb s [])
  | PList l => match l with [] => false | _ => true end
  | PDict d => match d with [] => false | _ => true end
  end.

(* ================================================================== *)
(** ** Numbers as text *)

Fixpoint uint_chars (u : Decimal.uint) : str :=
  match u with
  | Decimal.Nil => []
  | Decimal.D0 r => 48 :: uint_chars r
  | Decimal.D1 r => 49 :: uint_chars r
  | Decimal.D2 r => 50 :: uint_chars r
  | Decimal.D3 r => 51 :: uint_chars r
  | Decimal.D4 r => 52 :: uint_chars r
  | Decimal.D5 r => 53 :: uint_chars r
  | Decimal.D6 r => 54 :: uint_chars r
  | Decimal.D7 r => 55 :: uint_chars r
  | Decimal.D8 r => 56 :: uint_chars r
  | Decimal.D9 r => 57 :: uint_chars r
  end.

(** [repr] of a natural number. *)
Definition N_repr (n : N) : str := uint_chars (N.to_uint n).

(** [repr] of an [int]. *)
Definition int_repr (z : Z) : str :=
  match z with
  | Zneg p => 45 :: N_repr (Npos p)
  | _ => N_repr (Z.to_N z)
  end.

Definition digit_chars (ds : list N) : str := map (fun d => 48 + d) ds.

Fixpoint drop_zeros (ds : list N) : list N :=
  match ds with
  | 0 :: r => drop_zeros r
  | _ => ds
  end.

(** The float whose decimal writing has the integer digits [ip], the
    fraction digits [fp] and the exponent [e]. *)
Definition float_of_parts (neg : bool) (ip fp : list N) (e : Z) : pyfloat :=
  let all := ip ++ fp in
  let lead := drop_zeros all in
  let skipped := Z.of_nat (length all - length lead) in
  let ds := rev (drop_zeros (rev lead)) in
  match ds with
  | [] => FFin neg [] 0
  | _ => FFin neg ds (Z.of_nat (length ip) + e - skipped)
  end.

(** A float literal of the source, [ip.fp]. *)
Definition flt (ip fp : string) : pyfloat :=
  float_of_parts false (map (fun c => c - 48) (py ip))
                 (map (fun c => c - 48) (py fp)) 0.

Fixpoint zeros (n : nat) : str :=
  match n with
  | O => []
  | S k => 48 :: zeros k
  end.

(** [repr] of a float: positional when [-4 < decpt <= 16], with an
    exponent of at least two digits otherwise. *)
Definition float_repr (f : pyfloat) : str :=
  match f with
  | FInf => py "inf"
  | FNegInf => py "-inf"
  | FNaN => py "nan"
  | FFin neg ds decpt =>
      let sign := if neg then [45] else [] in
      match ds with
      | [] => sign ++ py "0.0"
      | d1 :: rest =>
          let n := Z.of_nat (length ds) in
          if ((-4 <? decpt) && (decpt <=? 16))%Z then
            if (decpt <=? 0)%Z then
              sign ++ py "0." ++ zeros (Z.to_nat (- decpt)) ++ digit_chars ds
            else if (n <=? decpt)%Z then
              sign ++ digit_chars ds ++ zeros (Z.to_nat (decpt - n))
                   ++ py ".0"
            else
              sign ++ digit_chars (firstn (Z.to_nat decpt) ds) ++ [46]
                   ++ digit_chars (skipn (Z.to_nat decpt) ds)
          else
            let ex := (decpt - 1)%Z in
            let exs := N_repr (Z.to_N (Z.abs ex)) in
            sign ++ digit_chars [d1]
                 ++ match rest with
                    | [] => []
                    | _ => 46 :: digit_chars rest
                    end
                 ++ [101] ++ (if (ex <? 0)%Z then [45] else [43])
                 ++ (if (length exs <? 2)%nat then 48 :: exs else exs)
      end
  end.

(* ================================================================== *)
(** ** [json.dumps(v, indent=2)] *)

Definition hex_digit (n : N) : N := if n <? 10 then 48 + n else 87 + n.

(** ['\\u{0:04x}'.format(n)] *)
Definition u_escape (n : N) : str :=
  [92; 117; hex_digit (N.land (N.shiftr n 12) 15);
   hex_digit (N.land (N.shiftr n 8) 15);
   hex_digit (N.land (N.shiftr n 4) 15); hex_digit (N.land n 15)].

(** One character of a string in a JSON text, as [ensure_ascii] writes
    it: everything outside [' '..'~'] is escaped, a code point above the
    basic plane as a surrogate pair. *)
Definition encode_char (c : N) : str :=
  if c =? 34 then [92; 34]
  else if c =? 92 then [92; 92]
  else if c =? 10 then [92; 110]
  else if c =? 13 then [92; 114]
  else if c =? 9 then [92; 116]
  else if c =? 8 then [92; 98]
  else if c =? 12 then [92; 102]
  else if (32 <=? c) && (c <=? 126) then [c]
  else if c <? 65536 then u_escape c
  else
    let n := c - 65536 in
    u_escape (N.lor 55296 (N.land (N.shiftr n 10) 1023))
    ++ u_escape (N.lor 56320 (N.land n 1023)).

Definition encode_string (s : str) : str :=
  dq ++ flat_map encode_char s ++ dq.

Definition json_float (f : pyfloat) : str :=
  match f with
  | FInf => py "Infinity"
  | FNegInf => py "-Infinity"
  | FNaN => py "NaN"
  | _ => float_repr f
  end.

Fixpoint spaces (n : nat) : str :=
  match n with
  | O => []
  | S k => 32 :: spaces k
  end.

(** The line break and indentation in front of an item at nesting depth
    [level]. *)
Definition newline_indent (level : nat) : str := 10 :: spaces (2 * level).

(** The text of [v] when it stands at nesting depth [level]. *)
Fixpoint dumps_at (level : nat) (v : pyval) : str :=
  match v with
  | PNone => py "null"
  | PBool true => py "true"
  | PBool false => py "false"
  | PInt z => int_repr z
  | PFloat f => json_float f
  | PStr s => encode_string s
  | PList [] => py "[]"
  | PList (x :: r) =>
      [91] ++ newline_indent (S level) ++ dumps_at (S level) x
      ++ (fix items (l : list pyval) : str :=
            match l with
            | [] => []
            | y :: l' =>
                [44] ++ newline_indent (S level) ++ dumps_at (S level) y
                ++ items l'
            end) r
      ++ newline_indent level ++ [93]
  | PDict [] => py "{}"
  | PDict ((k, x) :: r) =>
      [123] ++ newline_indent (S level) ++ encode_string k ++ py ": "
      ++ dumps_at (S level) x
      ++ (fix members (l : list (str * pyval)) : str :=
            match l with
            | [] => []
            | (k', y) :: l' =>
                [44] ++ newline_indent (S level) ++ encode_string k'
                ++ py ": " ++ dumps_at (S level) y ++ members l'
            end) r
      ++ newline_indent level ++ [125]
  end.

(** [json.dumps(v, indent=2)] *)
Definition json_dumps (v : pyval) : str := dumps_at 0 v.

(* ================================================================== *)
(** ** [json.loads]

    The decoder reads the text one character at a time and keeps the
    containers still open on a stack, so it is defined by recursion on
    the text alone. It accepts what Python's decoder accepts (strict
    strings, [NaN], [Infinity] and [-Infinity] included) and rejects the
    rest; every rejection is a [JSONDecodeError]. Python's bounds on the
    nesting depth and on the length of an integer literal are left
    out. *)

(** A container that is still open. *)
Inductive frame :=
| FList (done : list pyval)            (* items read, the last one first *)
| FDict (done : pydict)                (* members read *)
| FDictKey (done : pydict) (key : str) (* ... and a key awaiting its value *).

(** What may come next. *)
Inductive place :=
| AtValue        (* a value *)
| AtFirstItem    (* after '[': a value or ']' *)
| AtFirstKey     (* after '{': a key or '}' *)
| AtKey          (* after ',' in an object: a key *)
| AtColon        (* after a key: ':' *)
| AfterValue     (* after a value in a container: ',' or the closer *)
| AtEnd (v : pyval) (* the document is read: white space only *).

Inductive escape :=
| NoEsc
| Backslash
| Hex (ds : list N).

Inductive numphase :=
| NMinus | NZero | NInt | NDot | NFrac | NE | NESign | NExp.

(** The parts of a number read so far, each with its last digit first. *)
Record number := mk_number {
  n_neg : bool;
  n_int : list N;
  n_frac : list N;
  n_float : bool;
  n_eneg : bool;
  n_exp : list N
}.

Inductive lexer :=
| Idle
| InString (acc : str) (high : option N) (esc : escape)
| InNumber (ph : numphase) (n : number)
| InLiteral (rest : str) (v : pyval).

Definition parser : Type := list frame * place * lexer.

Definition is_json_ws (c : N) : bool :=
  (c =? 32) || (c =? 9) || (c =? 10) || (c =? 13).

Definition is_digit (c : N) : bool := (48 <=? c) && (c <=? 57).

Definition hex_value (c : N) : option N :=
  if is_digit c then Some (c - 48)
  else if (97 <=? c) && (c <=? 102) then Some (c - 87)
  else if (65 <=? c) && (c <=? 70) then Some (c - 55)
  else None.

Definition digits_value (ds : list N) : N :=
  fold_left (fun a d => 10 * a + d) ds 0.

Definition number_value (n : number) : pyval :=
  if n_float n then
    let e := Z.of_N (digits_value (rev (n_exp n))) in
    PFloat (float_of_parts (n_neg n) (rev (n_int n)) (rev (n_frac n))
                           (if n_eneg n then (- e)%Z else e))
  else
    let z := Z.of_N (digits_value (rev (n_int n))) in
    PInt (if n_neg n then (- z)%Z else z).

(** A value is complete: it goes into the innermost open container, or is
    the document. *)
Definition value_done (v : pyval) (st : list frame)
  : option (list frame * place) :=
  match st with
  | [] => Some ([], AtEnd v)
  | FList done :: r => Some (FList (v :: done) :: r, AfterValue)
  | FDictKey done k :: r => Some (FDict (dict_set done k v) :: r, AfterValue)
  | FDict _ :: _ => None
  end.

Definition close_list (st : list frame) : option (list frame * place) :=
  match st with
  | FList done :: r => value_done (PList (rev done)) r
  | _ => None
  end.

Definition close_dict (st : list frame) : option (list frame * place) :=
  match st with
  | FDict done :: r => value_done (PDict done) r
  | _ => None
  end.

Definition idle (x : option (list frame * place)) : option parser :=
  match x with
  | Some (st, pl) => Some (st, pl, Idle)
  | None => None
  end.

Definition empty_number (neg : bool) : number :=
  mk_number neg [] [] false false [].

(** The first character of a value. *)
Definition start_value (st : list frame) (pl : place) (c : N)
  : option parser :=
  if c =? 34 then Some (st, pl, InString [] None NoEsc)
  else if c =? 123 then Some (FDict [] :: st, AtFirstKey, Idle)
  else if c =? 91 then Some (FList [] :: st, AtFirstItem, Idle)
  else if c =? 110 then Some (st, pl, InLiteral (py "ull") PNone)
  else if c =? 116 then Some (st, pl, InLiteral (py "rue") (PBool true))
  else if c =? 102 then Some (st, pl, InLiteral (py "alse") (PBool false))
  else if c =? 78 then Some (st, pl, InLiteral (py "aN") (PFloat FNaN))
  else if c =? 73 then Some (st, pl, InLiteral (py "nfinity") (PFloat FInf))
  else if c =? 45 then Some (st, pl, InNumber NMinus (empty_number true))
  else if c =? 48 then
    Some (st, pl, InNumber NZero (mk_number false [0] [] false false []))
  else if is_digit c then
    Some (st, pl, InNumber NInt (mk_number false [c - 48] [] false false []))
  else None.

(** A character between two tokens. *)
Definition step_idle (st : list frame) (pl : place) (c : N)
  : option parser :=
  if is_json_ws c then Some (st, pl, Idle)
  else
    match pl with
    | AtValue => start_value st pl c
    | AtFirstItem =>
        if c =? 93 then idle (close_list st) else start_value st pl c
    | AtFirstKey =>
        if c =? 125 then idle (close_dict st)
        else if c =? 34 then Some (st, pl, InString [] None NoEsc)
        else None
    | AtKey =>
        if c =? 34 then Some (st, pl, InString [] None NoEsc) else None
    | AtColon => if c =? 58 then Some (st, AtValue, Idle) else None
    | AfterValue =>
        match st with
        | FList _ :: _ =>
            if c =? 44 then Some (st, AtValue, Idle)
            else if c =? 93 then idle (close_list st)
            else None
        | FDict _ :: _ =>
            if c =? 44 then Some (st, AtKey, Idle)
            else if c =? 125 then idle (close_dict st)
            else None
        | _ => None
        end
    | AtEnd _ => None
    end.

(** The closing quote of a string: a key or a value, by the place. *)
Definition string_done (st : list frame) (pl : place) (s : str)
  : option parser :=
  match pl with
  | AtFirstKey | AtKey =>
      match st with
      | FDict done :: r => Some (FDictKey done s :: r, AtColon, Idle)
      | _ => None
      end
  | _ => idle (value_done (PStr s) st)
  end.

Definition flush (acc : str) (high : option N) : str :=
  match high with
  | Some h => h :: acc
  | None => acc
  end.

Definition is_high_surrogate (u : N) : bool := (55296 <=? u) && (u <=? 56319).
Definition is_low_surrogate (u : N) : bool := (56320 <=? u) && (u <=? 57343).

(** The code point of a [\uXXXX] escape joins the string: a high
    surrogate waits for a low one that follows at once. *)
Definition unicode_escape (acc : str) (high : option N) (u : N) : lexer :=
  match high with
  | Some h =>
      if is_low_surrogate u then
        InString (65536 + N.lor (N.shiftl (h - 55296) 10) (u - 56320) :: acc)
                 None NoEsc
      else if is_high_surrogate u then InString (h :: acc) (Some u) NoEsc
      else InString (u :: h :: acc) None NoEsc
  | None =>
      if is_high_surrogate u then InString acc (Some u) NoEsc
      else InString (u :: acc) None NoEsc
  end.

Definition simple_escape (c : N) : option N :=
  if c =? 34 then Some 34
  else if c =? 92 then Some 92
  else if c =? 47 then Some 47
  else if c =? 98 then Some 8
  else if c =? 102 then Some 12
  else if c =? 110 then Some 10
  else if c =? 114 then Some 13
  else if c =? 116 then Some 9
  else None.

(** A character inside a string. *)
Definition step_string (st : list frame) (pl : place)
           (acc : str) (high : option N) (esc : escape) (c : N)
  : option parser :=
  match esc with
  | NoEsc =>
      if c =? 34 then string_done st pl (rev (flush acc high))
      else if c =? 92 then Some (st, pl, InString acc high Backslash)
      else if c <? 32 then None
      else Some (st, pl, InString (c :: flush acc high) None NoEsc)
  | Backslash =>
      if c =? 117 then Some (st, pl, InString acc high (Hex []))
      else
        match simple_escape c with
        | Some x => Some (st, pl, InString (x :: flush acc high) None NoEsc)
        | None => None
        end
  | Hex ds =>
      match hex_value c with
      | None => None
      | Some d =>
          match ds with
          | [d1; d2; d3] =>
              Some (st, pl,
                    unicode_escape acc high (4096 * d1 + 256 * d2 + 16 * d3 + d))
          | _ => Some (st, pl, InString acc high (Hex (ds ++ [d])))
          end
      end
  end.

Definition is_e (c : N) : bool := (c =? 101) || (c =? 69).

Definition add_int (n : number) (c : N) : number :=
  mk_number (n_neg n) (c - 48 :: n_int n) (n_frac n) (n_float n)
            (n_eneg n) (n_exp n).
Definition add_frac (n : number) (c : N) : number :=
  mk_number (n_neg n) (n_int n) (c - 48 :: n_frac n) true
            (n_eneg n) (n_exp n).
Definition add_exp (n : number) (c : N) : number :=
  mk_number (n_neg n) (n_int n) (n_frac n) true
            (n_eneg n) (c - 48 :: n_exp n).
Definition set_float (n : number) (eneg : bool) : number :=
  mk_number (n_neg n) (n_int n) (n_frac n) true eneg (n_exp n).

(** The number ends in front of [c], which is then read between tokens. *)
Definition number_done (st : list frame) (n : number) (c : N)
  : option parser :=
  match value_done (number_value n) st with
  | Some (st', pl') => step_idle st' pl' c
  | None => None
  end.

(** A character after the start of a number. *)
Definition step_number (st : list frame) (pl : place)
           (ph : numphase) (n : number) (c : N) : option parser :=
  match ph with
  | NMinus =>
      if c =? 48 then Some (st, pl, InNumber NZero (add_int n c))
      else if is_digit c then Some (st, pl, InNumber NInt (add_int n c))
      else if c =? 73 then
        Some (st, pl, InLiteral (py "nfinity") (PFloat FNegInf))
      else None
  | NZero =>
      if c =? 46 then Some (st, pl, InNumber NDot n)
      else if is_e c then Some (st, pl, InNumber NE (set_float n false))
      else number_done st n c
  | NInt =>
      if is_digit c then Some (st, pl, InNumber NInt (add_int n c))
      else if c =? 46 then Some (st, pl, InNumber NDot n)
      else if is_e c then Some (st, pl, InNumber NE (set_float n false))
      else number_done st n c
  | NDot =>
      if is_digit c then Some (st, pl, InNumber NFrac (add_frac n c))
      else None
  | NFrac =>
      if is_digit c then Some (st, pl, InNumber NFrac (add_frac n c))
      else if is_e c then Some (st, pl, InNumber NE (set_float n false))
      else number_done st n c
  | NE =>
      if c =? 43 then Some (st, pl, InNumber NESign (set_float n false))
      else if c =? 45 then Some (st, pl, InNumber NESign (set_float n true))
      else if is_digit c then Some (st, pl, InNumber NExp (add_exp n c))
      else None
  | NESign =>
      if is_digit c then Some (st, pl, InNumber NExp (add_exp n c))
      else None
  | NExp =>
      if is_digit c then Some (st, pl, InNumber NExp (add_exp n c))
      else number_done st n c
  end.

(** One character of the text. *)
Definition step (p : parser) (c : N) : option parser :=
  match p with
  | (st, pl, Idle) => step_idle st pl c
  | (st, pl, InString acc high esc) => step_string st pl acc high esc c
  | (st, pl, InNumber ph n) => step_number st pl ph n c
  | (st, pl, InLiteral rest v) =>
      match rest with
      | x :: rest' =>
          if c =? x then
            match rest' with
            | [] => idle (value_done v st)
            | _ => Some (st, pl, InLiteral rest' v)
            end
          else None
      | [] => None
      end
  end.

Fixpoint run_parser (p : parser) (s : str) : option parser :=
  match s with
  | [] => Some p
  | c :: r =>
      match step p c with
      | Some p' => run_parser p' r
      | None => None
      end
  end.

(** The end of the text: a number may end here, nothing else may be
    open. *)
Definition at_eof (p : parser) : option pyval :=
  match p with
  | ([], AtEnd v, Idle) => Some v
  | ([], AtValue, InNumber ph n) =>
      match ph with
      | NZero | NInt | NFrac | NExp => Some (number_value n)
      | _ => None
      end
  | _ => None
  end.

(** The decoder on a text. *)
Definition decode (s : str) : outcome pyval :=
  match run_parser ([], AtValue, Idle) s with
  | Some p =>
      match at_eof p with
      | Some v => Ok v
      | None => Raise JSONDecodeError
      end
  | None => Raise JSONDecodeError
  end.

(** [json.loads(x)]: only a string can be decoded. *)
Definition json_loads (x : pyval) : outcome pyval :=
  match x with
  | PStr s => decode s
  | _ => Raise TypeError
  end.

(* ================================================================== *)
(** ** Chats with the agents *)

(** The agents that [FraudDetectionSystem.__init__] creates, and the
    proxy that the interactive session creates. *)
Inductive agent :=
| ml_assessment_agent
| rule_assessment_agent
| explanation_agent
| decision_agent
| coordinator_agent
| react_agent
| fraud_manager
| auto_proxy.

(** The request for one chat, as the program passes it to
    [initiate_chats] or [initiate_chat]. *)
Record chat := mk_chat {
  sender : agent;
  recipient : agent;
  message : str;
  clear_history : bool;
  max_turns : option nat
}.

(** What a chat gives back; the program reads nothing but the history,
    a list of message dicts. *)
Record ChatResult := mk_result {
  chat_history : list pydict
}.

(** The library, the language models behind the agents and the person at
    the keyboard are not part of the program. Together they answer a chat
    request, knowing the requests made before it, with a chat history. *)
Definition world := list chat -> chat -> list pydict.

(** A computation of the program: it sees the requests made so far, may
    add to them, and returns a value or raises. *)
Definition M (A : Type) : Type := list chat -> outcome A * list chat.

Definition ret {A : Type} (a : A) : M A := fun t => (Ok a, t).

Definition raise {A : Type} (e : exn) : M A := fun t => (Raise e, t).

Definition bind {A B : Type} (c : M A) (k : A -> M B) : M B :=
  fun t =>
    match c t with
    | (Ok a, t') => k a t'
    | (Raise e, t') => (Raise e, t')
    end.

(** A step that does not chat. *)
Definition lift {A : Type} (o : outcome A) : M A := fun t => (o, t).

Notation "x <- c ;; k" := (bind c (fun x => k))
  (at level 61, c at next level, right associativity).

Definition obind {A B : Type} (o : outcome A) (k : A -> outcome B)
  : outcome B :=
  match o with
  | Ok a => k a
  | Raise e => Raise e
  end.

(** [x.strip()] *)
Definition py_strip (x : pyval) : outcome str :=
  match x with
  | PStr s => Ok (strip s)
  | _ => Raise AttributeError
  end.

(** [history[-1]['content']] *)
Definition last_content (history : list pydict) : outcome pyval :=
  obind (last_item history) (fun m => subscript (PDict m) (py "content")).

(** The Transaction of the program, a [TypedDict]. *)
Record Transaction := mk_transaction {
  transaction_id : str;
  sender_account : str;
  receiver_account : str;
  amount : pyfloat;
  timestamp : str;
  description : option str;
  is_realtime : bool
}.

(** The dict that a Transaction is at run time. *)
Definition transaction_dict (t : Transaction) : pyval :=
  PDict [(py "transaction_id", PStr (transaction_id t));
         (py "sender_account", PStr (sender_account t));
         (py "receiver_account", PStr (receiver_account t));
         (py "amount", PFloat (amount t));
         (py "timestamp", PStr (timestamp t));
         (py "description",
          match description t with
          | Some d => PStr d
          | None => PNone
          end);
         (py "is_realtime", PBool (is_realtime t))].

Definition nl : str := [10].

Definition ml_message (transaction_data : pyval) : str :=
  py "Bewerte folgende Transaktion: " ++ json_dumps transaction_data.

Definition rule_message (transaction_data : pyval) : str :=
  py "Prüfe folgende Transaktion gegen die Regelwerk: "
  ++ json_dumps transaction_data.

Definition coordination_message
           (transaction_data ml_assessment rule_assessment : pyval) : str :=
  nl
  ++ py "        Koordiniere den weiteren Prozessverlauf basierend auf folgenden Bewertungen:" ++ nl
  ++ nl
  ++ py "        Transaktion:" ++ nl
  ++ py "        " ++ json_dumps transaction_data ++ nl
  ++ nl
  ++ py "        ML-Bewertung:" ++ nl
  ++ py "        " ++ json_dumps ml_assessment ++ nl
  ++ nl
  ++ py "        Regelbasierte Bewertung:" ++ nl
  ++ py "        " ++ json_dumps rule_assessment ++ nl
  ++ nl
  ++ py "        Entscheide, welcher der folgenden Schritte als nächstes durchgeführt werden soll:" ++ nl
  ++ py "        1. " ++ dq ++ py "generate_explanation" ++ dq ++ py " - Bei Verdacht, aber nicht bei Echtzeit-Überweisungen" ++ nl
  ++ py "        2. " ++ dq ++ py "decision_agent" ++ dq ++ py " - Bei Echtzeit-Überweisungen und Verdacht" ++ nl
  ++ py "        3. " ++ dq ++ py "approve_transaction" ++ dq ++ py " - Bei keinem Verdacht" ++ nl
  ++ nl
  ++ py "        Antworte nur mit einem der drei Befehle ohne weitere Erklärung." ++ nl
  ++ py "        ".

Definition decision_message
           (transaction_data ml_assessment rule_assessment : pyval) : str :=
  nl
  ++ py "            Treffe eine automatische Entscheidung für diese Echtzeit-Überweisung:" ++ nl
  ++ nl
  ++ py "            Transaktion:" ++ nl
  ++ py "            " ++ json_dumps transaction_data ++ nl
  ++ nl
  ++ py "            ML-Bewertung:" ++ nl
  ++ py "            " ++ json_dumps ml_assessment ++ nl
  ++ nl
  ++ py "            Regelbasierte Bewertung:" ++ nl
  ++ py "            " ++ json_dumps rule_assessment ++ nl
  ++ py "            ".

Definition explanation_message
           (transaction_data ml_assessment rule_assessment : pyval) : str :=
  nl
  ++ py "            Erkläre, warum die folgende Transaktion verdächtig erscheint:" ++ nl
  ++ nl
  ++ py "            Transaktion:" ++ nl
  ++ py "            " ++ json_dumps transaction_data ++ nl
  ++ nl
  ++ py "            ML-Bewertung:" ++ nl
  ++ py "            " ++ json_dumps ml_assessment ++ nl
  ++ nl
  ++ py "            Regelbasierte Bewertung:" ++ nl
  ++ py "            " ++ json_dumps rule_assessment ++ nl
  ++ py "            ".

Definition error_message (next_step : str) : str :=
  py "Unerwartete Koordinator-Antwort: " ++ next_step.

(** The words the review dialogue is scanned for. *)
Definition GENEHMIGEN : str := py "GENEHMIGEN".
Definition ABLEHNEN : str := py "ABLEHNEN".
Definition termination_commands : list str :=
  [py "BEENDEN"; py "TERMINATE"; py "EXIT"].

(* ================================================================== *)
(** ** The lookup tools *)

(** [get_user_transaction_history]: simulated data. *)
Definition get_user_transaction_history (account_id : str) : str :=
  let transactions :=
    PList
      [PDict [(py "transaction_id", PStr (py "t123456"));
              (py "amount", PFloat (flt "1250" "00"));
              (py "timestamp", PStr (py "2023-12-01T15:30:00Z"));
              (py "receiver_account", PStr (py "DE89370400440532013000"));
              (py "description", PStr (py "Monatsmiete Dezember"))];
       PDict [(py "transaction_id", PStr (py "t123457"));
              (py "amount", PFloat (flt "89" "99"));
              (py "timestamp", PStr (py "2023-12-03T10:15:00Z"));
              (py "receiver_account", PStr (py "DE12500105170648489890"));
              (py "description", PStr (py "Online-Einkauf Elektronik"))];
       PDict [(py "transaction_id", PStr (py "t123458"));
              (py "amount", PFloat (flt "50" "00"));
              (py "timestamp", PStr (py "2023-12-05T09:20:00Z"));
              (py "receiver_account", PStr (py "DE13600501017832594242"));
              (py "description", PStr (py "Überweisung an Freund"))]] in
  json_dumps transactions.

(** [get_user_profile]: simulated data around the account id asked for. *)
Definition get_user_profile (account_id : str) : str :=
  let user_profile :=
    PDict [(py "account_id", PStr account_id);
           (py "account_age_days", PInt 730);
           (py "account_type", PStr (py "private"));
           (py "risk_score", PFloat (flt "0" "15"));
           (py "average_transaction_amount", PFloat (flt "450" "75"));
           (py "transaction_frequency", PFloat (flt "12" "5"));
           (py "previous_flags", PInt 1);
           (py "typical_countries",
            PList [PStr (py "DE"); PStr (py "FR"); PStr (py "ES")]);
           (py "typical_receivers",
            PList [PStr (py "DE89370400440532013000");
                   PStr (py "DE12500105170648489890")])] in
  json_dumps user_profile.

(** [get_similar_fraud_cases]: simulated data. *)
Definition get_similar_fraud_cases (case_features : str) : str :=
  let similar_cases :=
    PList
      [PDict [(py "case_id", PStr (py "f987654"));
              (py "similarity_score", PFloat (flt "0" "85"));
              (py "features",
               PDict [(py "amount_unusually_high", PBool true);
                      (py "new_receiver", PBool true);
                      (py "unusual_time", PBool true)]);
              (py "outcome", PStr (py "confirmed_fraud"))];
       PDict [(py "case_id", PStr (py "f987655"));
              (py "similarity_score", PFloat (flt "0" "78"));
              (py "features",
               PDict [(py "amount_unusually_high", PBool true);
                      (py "new_receiver", PBool false);
                      (py "unusual_time", PBool true)]);
              (py "outcome", PStr (py "false_positive"))]] in
  json_dumps similar_cases.

(** The functions registered with the fraud manager for execution. A
    call of one is a step of the program like any other: it runs in the
    state the chats have reached. *)
Definition _get_user_transaction_history (account_id : str) : M str :=
  ret (get_user_transaction_history account_id).

Definition _get_user_profile (account_id : str) : M str :=
  ret (get_user_profile account_id).

Definition _get_similar_fraud_cases (case_features : str) : M str :=
  ret (get_similar_fraud_cases case_features).

Section Workflow.

Variable unicode_upper : N -> list N.

(** [str(x)] of a list or a dict goes through [repr], which needs the
    Unicode character database to tell printable characters: it is a
    parameter. *)
Variable container_str : pyval -> str.

Variable w : world.

(** What an f-string puts in the place of [{x}]. *)
Definition format_value (x : pyval) : str :=
  match x with
  | PStr s => s
  | PNone => py "None"
  | PBool true => py "True"
  | PBool false => py "False"
  | PInt z => int_repr z
  | PFloat f => float_repr f
  | _ => container_str x
  end.

Definition initial_message
           (transaction_data ml_assessment rule_assessment explanation : pyval)
  : str :=
  nl
  ++ py "            Transaktion zur Überprüfung:" ++ nl
  ++ py "            " ++ json_dumps transaction_data ++ nl
  ++ nl
  ++ py "            ML-Bewertung:" ++ nl
  ++ py "            " ++ json_dumps ml_assessment ++ nl
  ++ nl
  ++ py "            Regelbasierte Bewertung:" ++ nl
  ++ py "            " ++ json_dumps rule_assessment ++ nl
  ++ nl
  ++ py "            Erklärung:" ++ nl
  ++ py "            " ++ format_value explanation ++ nl
  ++ nl
  ++ py "            Sie können jetzt Fragen zu dieser Transaktion stellen. Der Datenbankabfrage-Agent wird Ihnen helfen," ++ nl
  ++ py "            weitere Informationen zu bekommen. Wenn Sie bereit sind zu entscheiden, geben Sie " ++ dq ++ py "GENEHMIGEN" ++ dq ++ py " oder " ++ dq ++ py "ABLEHNEN" ++ dq ++ py " ein." ++ nl
  ++ py "            ".

(** [x.upper()] *)
Definition py_upper (x : pyval) : outcome str :=
  match x with
  | PStr s => Ok (upper unicode_upper s)
  | _ => Raise AttributeError
  end.

(** The [is_termination_msg] of the fraud manager:
    [x.get("content", "") and any(cmd in x.get("content", "").upper() ...)] *)
Definition is_termination_msg (x : pydict) : outcome pyval :=
  let content := dict_get x (py "content") (PStr []) in
  if truthy content then
    obind (py_upper content)
          (fun u => Ok (PBool (existsb (fun cmd => str_in cmd u)
                                       termination_commands)))
  else Ok content.

(** The loop that reads the verdict off a chat history: the first
    message whose upper-cased content holds one of the two words decides,
    the approval word being looked for first. *)
Fixpoint extract_decision (history : list pydict) : outcome str :=
  match history with
  | [] => Ok (py "undecided")
  | message :: rest =>
      obind (py_upper (dict_get message (py "content") (PStr [])))
            (fun content =>
               if str_in GENEHMIGEN content then Ok (py "approved")
               else if str_in ABLEHNEN content then Ok (py "declined")
               else extract_decision rest)
  end.

(** [sender.initiate_chat(recipient, ...)] *)
Definition initiate_chat (c : chat) : M ChatResult :=
  fun t => (Ok (mk_result (w t c)), t ++ [c]).

(** [autogen.initiate_chats([...])]: the chats are held one after the
    other. *)
Fixpoint initiate_chats (cs : list chat) : M (list ChatResult) :=
  match cs with
  | [] => ret []
  | c :: r =>
      x <- initiate_chat c ;;
      xs <- initiate_chats r ;;
      ret (x :: xs)
  end.

(** [results[i].chat_history[-1]['content']] *)
Definition reply_of (results : list ChatResult) (i : nat) : outcome pyval :=
  obind (item results i) (fun r => last_content (chat_history r)).

(** [FraudDetectionSystem.process_transaction] *)
Definition process_transaction (transaction : Transaction) : M pyval :=
  let transaction_data := transaction_dict transaction in
  chat_results <-
    initiate_chats
      [mk_chat fraud_manager ml_assessment_agent
               (ml_message transaction_data) true (Some 1%nat);
       mk_chat fraud_manager rule_assessment_agent
               (rule_message transaction_data) true (Some 1%nat)] ;;
  ml_assessment <- lift (obind (reply_of chat_results 0) json_loads) ;;
  rule_assessment <- lift (obind (reply_of chat_results 1) json_loads) ;;
  coordination_result <-
    initiate_chats
      [mk_chat fraud_manager coordinator_agent
               (coordination_message transaction_data ml_assessment
                                     rule_assessment)
               true (Some 1%nat)] ;;
  next_step <- lift (obind (reply_of coordination_result 0) py_strip) ;;
  if str_eqb next_step (py "approve_transaction") then
    ret (PDict [(py "transaction", transaction_data);
                (py "ml_assessment", ml_assessment);
                (py "rule_assessment", rule_assessment);
                (py "final_decision", PStr (py "approved"));
                (py "explanation", PNone);
                (py "process_complete", PBool true)])
  else if str_eqb next_step (py "decision_agent") then
    decision_result <-
      initiate_chats
        [mk_chat fraud_manager decision_agent
                 (decision_message transaction_data ml_assessment
                                   rule_assessment)
                 true (Some 1%nat)] ;;
    decision <- lift (obind (reply_of decision_result 0) json_loads) ;;
    final_decision <- lift (subscript decision (py "decision")) ;;
    reasoning <- lift (subscript decision (py "reasoning")) ;;
    ret (PDict [(py "transaction", transaction_data);
                (py "ml_assessment", ml_assessment);
                (py "rule_assessment", rule_assessment);
                (py "final_decision", final_decision);
                (py "explanation", reasoning);
                (py "process_complete", PBool true)])
  else if str_eqb next_step (py "generate_explanation") then
    explanation_result <-
      initiate_chats
        [mk_chat fraud_manager explanation_agent
                 (explanation_message transaction_data ml_assessment
                                      rule_assessment)
                 true (Some 1%nat)] ;;
    explanation <- lift (reply_of explanation_result 0) ;;
    chat_result <-
      initiate_chats
        [mk_chat fraud_manager react_agent
                 (initial_message transaction_data ml_assessment
                                  rule_assessment explanation)
                 false None] ;;
    final_decision <-
      lift (obind (item chat_result 0)
                  (fun r => extract_decision (chat_history r))) ;;
    ret (PDict [(py "transaction", transaction_data);
                (py "ml_assessment", ml_assessment);
                (py "rule_assessment", rule_assessment);
                (py "explanation", explanation);
                (py "final_decision", PStr final_decision);
                (py "process_complete",
                 PBool (negb (str_eqb final_decision (py "undecided"))))])
  else
    ret (PDict [(py "transaction", transaction_data);
                (py "ml_assessment", ml_assessment);
                (py "rule_assessment", rule_assessment);
                (py "error", PStr (error_message next_step));
                (py "process_complete", PBool false)]).

Definition session_rule_message (transaction_data : pyval) : str :=
  py "Prüfe folgende Transaktion gegen das Regelwerk: "
  ++ json_dumps transaction_data.

Definition session_explanation_message
           (transaction_data ml_assessment rule_assessment : pyval) : str :=
  nl
  ++ py "            Erkläre, warum die folgende Transaktion verdächtig erscheint:" ++ nl
  ++ nl
  ++ py "            Transaktion:" ++ nl
  ++ py "            " ++ json_dumps transaction_data ++ nl
  ++ nl
  ++ py "            ML-Bewertung:" ++ nl
  ++ py "            " ++ json_dumps ml_assessment ++ nl
  ++ nl
  ++ py "            Regelbasierte Bewertung:" ++ nl
  ++ py "            " ++ json_dumps rule_assessment ++ nl
  ++ py "            ".

Definition session_initial_message
           (transaction_data ml_assessment rule_assessment explanation : pyval)
  : str :=
  nl
  ++ py "        ## Fraud-Alert: Verdächtige Transaktion zur Überprüfung" ++ nl
  ++ nl
  ++ py "        ### Transaktionsdetails:" ++ nl
  ++ py "        ```json" ++ nl
  ++ py "        " ++ json_dumps transaction_data ++ nl
  ++ py "        ```" ++ nl
  ++ nl
  ++ py "        ### ML-Bewertung:" ++ nl
  ++ py "        ```json" ++ nl
  ++ py "        " ++ json_dumps ml_assessment ++ nl
  ++ py "        ```" ++ nl
  ++ nl
  ++ py "        ### Regelbasierte Bewertung:" ++ nl
  ++ py "        ```json" ++ nl
  ++ py "        " ++ json_dumps rule_assessment ++ nl
  ++ py "        ```" ++ nl
  ++ nl
  ++ py "        ### Analyse & Erklärung:" ++ nl
  ++ py "        " ++ format_value explanation ++ nl
  ++ nl
  ++ py "        ---" ++ nl
  ++ nl
  ++ py "        Sie können nun Fragen zu dieser Transaktion stellen, um mehr Informationen zu erhalten. " ++ nl
  ++ py "        Der ReAct-Agent kann die Datenbank abfragen, um Ihnen weitere Einblicke zu geben." ++ nl
  ++ nl
  ++ py "        Beispielfragen:" ++ nl
  ++ py "        - " ++ dq ++ py "Wie sieht die Transaktionshistorie dieses Kontos aus?" ++ dq ++ nl
  ++ py "        - " ++ dq ++ py "Gab es ähnliche Betrugsfälle in der Vergangenheit?" ++ dq ++ nl
  ++ py "        - " ++ dq ++ py "Zeige mir das Nutzerprofil mit Risikobewertung" ++ dq ++ nl
  ++ nl
  ++ py "        Wenn Sie bereit sind, eine Entscheidung zu treffen, geben Sie " ++ dq ++ py "GENEHMIGEN" ++ dq ++ py " oder " ++ dq ++ py "ABLEHNEN" ++ dq ++ py " ein." ++ nl
  ++ py "        Wenn Sie den Prozess beenden möchten, geben Sie " ++ dq ++ py "BEENDEN" ++ dq ++ py " ein." ++ nl
  ++ py "        ".

(** [FraudDetectionSystem.interactive_fraud_manager_session]. The
    history it scans, [self.fraud_manager.chat_history], is the history
    of the chat the fraud manager has just held. *)
Definition interactive_fraud_manager_session (transaction : Transaction)
  : M str :=
  let transaction_data := transaction_dict transaction in
  ml_result <-
    initiate_chat (mk_chat auto_proxy ml_assessment_agent
                           (ml_message transaction_data) true None) ;;
  rule_result <-
    initiate_chat (mk_chat auto_proxy rule_assessment_agent
                           (session_rule_message transaction_data)
                           true None) ;;
  ml_assessment <-
    lift (obind (last_content (chat_history ml_result)) json_loads) ;;
  rule_assessment <-
    lift (obind (last_content (chat_history rule_result)) json_loads) ;;
  explanation_result <-
    initiate_chat (mk_chat auto_proxy explanation_agent
                           (session_explanation_message
                              transaction_data ml_assessment rule_assessment)
                           true None) ;;
  explanation <- lift (last_content (chat_history explanation_result)) ;;
  session <-
    initiate_chat (mk_chat fraud_manager react_agent
                           (session_initial_message
                              transaction_data ml_assessment rule_assessment
                              explanation)
                           true None) ;;
  lift (extract_decision (chat_history session)).

End Workflow.

(* ================================================================== *)
(** ** The chats of a run, and worlds to run in *)

(** The requests that [process_transaction] makes, in their order. *)
Definition ml_chat (tx : Transaction) : chat :=
  mk_chat fraud_manager ml_assessment_agent
          (ml_message (transaction_dict tx)) true (Some 1%nat).

Definition rule_chat (tx : Transaction) : chat :=
  mk_chat fraud_manager rule_assessment_agent
          (rule_message (transaction_dict tx)) true (Some 1%nat).

Definition coordinator_chat (tx : Transaction) (ml rule : pyval) : chat :=
  mk_chat fraud_manager coordinator_agent
          (coordination_message (transaction_dict tx) ml rule)
          true (Some 1%nat).

Definition decision_chat (tx : Transaction) (ml rule : pyval) : chat :=
  mk_chat fraud_manager decision_agent
          (decision_message (transaction_dict tx) ml rule)
          true (Some 1%nat).

Definition explanation_chat (tx : Transaction) (ml rule : pyval) : chat :=
  mk_chat fraud_manager explanation_agent
          (explanation_message (transaction_dict tx) ml rule)
          true (Some 1%nat).

Definition review_chat (container_str : pyval -> str)
           (tx : Transaction) (ml rule explanation : pyval) : chat :=
  mk_chat fraud_manager react_agent
          (initial_message container_str (transaction_dict tx) ml rule
                           explanation)
          false None.

(** What the world answers to them. *)
Definition ml_reply (w : world) (tx : Transaction) : outcome pyval :=
  last_content (w [] (ml_chat tx)).

Definition rule_reply (w : world) (tx : Transaction) : outcome pyval :=
  last_content (w [ml_chat tx] (rule_chat tx)).

Definition coordinator_reply (w : world) (tx : Transaction)
           (ml rule : pyval) : outcome pyval :=
  last_content (w [ml_chat tx; rule_chat tx] (coordinator_chat tx ml rule)).

Definition decision_reply (w : world) (tx : Transaction)
           (ml rule : pyval) : outcome pyval :=
  last_content (w [ml_chat tx; rule_chat tx; coordinator_chat tx ml rule]
                  (decision_chat tx ml rule)).

Definition explanation_reply (w : world) (tx : Transaction)
           (ml rule : pyval) : outcome pyval :=
  last_content (w [ml_chat tx; rule_chat tx; coordinator_chat tx ml rule]
                  (explanation_chat tx ml rule)).

Definition review_history (container_str : pyval -> str) (w : world)
           (tx : Transaction) (ml rule explanation : pyval) : list pydict :=
  w [ml_chat tx; rule_chat tx; coordinator_chat tx ml rule;
     explanation_chat tx ml rule]
    (review_chat container_str tx ml rule explanation).

(** The requests that [interactive_fraud_manager_session] makes, and the
    answers to them. *)
Definition session_ml_chat (tx : Transaction) : chat :=
  mk_chat auto_proxy ml_assessment_agent
          (ml_message (transaction_dict tx)) true None.

Definition session_rule_chat (tx : Transaction) : chat :=
  mk_chat auto_proxy rule_assessment_agent
          (session_rule_message (transaction_dict tx)) true None.

Definition session_explanation_chat (tx : Transaction) (ml rule : pyval)
  : chat :=
  mk_chat auto_proxy explanation_agent
          (session_explanation_message (transaction_dict tx) ml rule)
          true None.

Definition session_review_chat (container_str : pyval -> str)
           (tx : Transaction) (ml rule explanation : pyval) : chat :=
  mk_chat fraud_manager react_agent
          (session_initial_message container_str (transaction_dict tx)
                                   ml rule explanation)
          true None.

Definition session_ml_reply (w : world) (tx : Transaction) : outcome pyval :=
  last_content (w [] (session_ml_chat tx)).

Definition session_rule_reply (w : world) (tx : Transaction)
  : outcome pyval :=
  last_content (w [session_ml_chat tx] (session_rule_chat tx)).

Definition session_explanation_reply (w : world) (tx : Transaction)
           (ml rule : pyval) : outcome pyval :=
  last_content (w [session_ml_chat tx; session_rule_chat tx]
                  (session_explanation_chat tx ml rule)).

Definition session_history (container_str : pyval -> str) (w : world)
           (tx : Transaction) (ml rule explanation : pyval) : list pydict :=
  w [session_ml_chat tx; session_rule_chat tx;
     session_explanation_chat tx ml rule]
    (session_review_chat container_str tx ml rule explanation).

(** The value an outcome holds ([None] when it holds none). *)
Definition the (o : outcome pyval) : pyval :=
  match o with
  | Ok v => v
  | Raise _ => PNone
  end.

(** The assessments and the coordinator's answer as a run in [w] gets
    them. *)
Definition ml_of (w : world) (tx : Transaction) : pyval :=
  the (obind (ml_reply w tx) json_loads).

Definition rule_of (w : world) (tx : Transaction) : pyval :=
  the (obind (rule_reply w tx) json_loads).

Definition coordinator_of (w : world) (tx : Transaction) : str :=
  match coordinator_reply w tx (ml_of w tx) (rule_of w tx) with
  | Ok (PStr c) => c
  | _ => []
  end.

(** The value of a run and the agents it has talked to. *)
Definition value_of {A : Type} (r : outcome A * list chat) : outcome A :=
  fst r.

Definition agents_of {A : Type} (r : outcome A * list chat) : list agent :=
  map recipient (snd r).

(** [result[k]] of a returned result. *)
Definition field (k : string) (r : outcome pyval) : outcome pyval :=
  obind r (fun x => subscript x (py k)).

Definition agent_name (a : agent) : str :=
  match a with
  | ml_assessment_agent => py "ml_assessment_agent"
  | rule_assessment_agent => py "rule_assessment_agent"
  | explanation_agent => py "explanation_agent"
  | decision_agent => py "decision_agent"
  | coordinator_agent => py "coordinator_agent"
  | react_agent => py "react_agent"
  | fraud_manager => py "Fraud_Manager"
  | auto_proxy => py "Auto_Proxy"
  end.

(** A message as it stands in a chat history. *)
Definition said (role name content : string) : pydict :=
  [(py "content", PStr (py content)); (py "role", PStr (py role));
   (py "name", PStr (py name))].

(** The first entry of every history: the message the chat was opened
    with. *)
Definition opening (c : chat) : pydict :=
  [(py "content", PStr (message c)); (py "role", PStr (py "assistant"));
   (py "name", PStr (agent_name (sender c)))].

(** A world in which every agent has its lines ready: a history is the
    opening message followed by the lines of the agent addressed. *)
Definition scripted (script : agent -> list pydict) : world :=
  fun _ c => opening c :: script (recipient c).

(** An agent's single answer, given as JSON text with apostrophes for
    double quotes. *)
Definition answers (name text : string) : list pydict :=
  [[(py "content", PStr (jtext text)); (py "role", PStr (py "user"));
    (py "name", PStr (py name))]].

(** The two transactions of the program's own example run. *)
Definition example_transaction_realtime : Transaction :=
  mk_transaction (py "tx98765") (py "DE55500105173984217489")
                 (py "FR7630006000011234567890189") (flt "2500" "00")
                 (py "2023-12-15T22:45:00Z") (Some (py "Dringende Zahlung"))
                 true.

Definition example_transaction_manual : Transaction :=
  mk_transaction (py "tx98766") (py "DE55500105173984217489")
                 (py "FR7630006000011234567890189") (flt "2500" "00")
                 (py "2023-12-15T22:45:00Z") (Some (py "Dringende Zahlung"))
                 false.

(** No table beyond Latin-1 and no [repr] of containers: enough for the
    concrete runs below, whose texts need neither. *)
Definition no_container_str (x : pyval) : str := [].

Definition run_process (w : world) (tx : Transaction)
  : outcome pyval * list chat :=
  process_transaction latin1_upper no_container_str w tx [].

Definition run_session (w : world) (tx : Transaction)
  : outcome str * list chat :=
  interactive_fraud_manager_session latin1_upper no_container_str w tx [].

(* ================================================================== *)
(** ** Reading a chat history *)

(** The message has no content or a string as content: the only messages
    whose content the verdict loop can upper-case. *)
Definition text_message (m : pydict) : bool :=
  match dict_find m (py "content") with
  | None | Some (PStr _) => true
  | Some _ => false
  end.

(** The content of the message is a string that holds, upper-cased, the
    word [word]. *)
Definition holds_word (unicode_upper : N -> list N) (word : str)
           (m : pydict) : bool :=
  match dict_find m (py "content") with
  | Some (PStr s) => str_in word (upper unicode_upper s)
  | _ => false
  end.

(** ... one of the two verdict words. *)
Definition holds_verdict (unicode_upper : N -> list N) (m : pydict) : bool :=
  holds_word unicode_upper GENEHMIGEN m || holds_word unicode_upper ABLEHNEN m.

(** ... one of the termination commands. *)
Definition holds_termination (unicode_upper : N -> list N) (m : pydict)
  : bool :=
  existsb (fun cmd => holds_word unicode_upper cmd m) termination_commands.

(** The three values a verdict can take. *)
Definition is_verdict (v : str) : Prop :=
  v = py "approved" \/ v = py "declined" \/ v = py "undecided".

(* ================================================================== *)
(** ** What the specification asks of the collaborators' answers *)






(* ================================================================== *)
(** ** Concrete worlds *)

Definition ml_unsuspicious : list pydict :=
  answers "ml_assessment_agent"
    "{'probability': 0.1, 'threshold': 0.5, 'is_fraud': false, 'features': {'amount_unusually_high': false}, 'model_version': 'fraud-detection-v3.2'}".

Definition rule_unsuspicious : list pydict :=
  answers "rule_assessment_agent"
    "{'is_flagged': false, 'rules_triggered': [], 'version': 'rule-engine-v2.1'}".

Definition ml_suspicious : list pydict :=
  answers "ml_assessment_agent"
    "{'probability': 0.75, 'threshold': 0.5, 'is_fraud': true, 'features': {'amount_unusually_high': true, 'new_receiver': true}, 'model_version': 'fraud-detection-v3.2'}".

Definition rule_suspicious : list pydict :=
  answers "rule_assessment_agent"
    "{'is_flagged': true, 'rules_triggered': ['unusual_time', 'new_receiver'], 'version': 'rule-engine-v2.1'}".

(** Nothing suspicious, and the coordinator approves. *)
Definition world_unsuspicious_approved : world :=
  scripted (fun a =>
    match a with
    | ml_assessment_agent => ml_unsuspicious
    | rule_assessment_agent => rule_unsuspicious
    | coordinator_agent => answers "coordinator_agent" "  approve_transaction "
    | _ => []
    end).

(** Nothing suspicious, yet the coordinator sends the transaction to the
    decision agent, which declines it. *)
Definition world_unsuspicious_declined : world :=
  scripted (fun a =>
    match a with
    | ml_assessment_agent => ml_unsuspicious
    | rule_assessment_agent => rule_unsuspicious
    | coordinator_agent => answers "coordinator_agent" "decision_agent"
    | decision_agent =>
        answers "decision_agent"
          "{'decision': 'declined', 'confidence': 0.9, 'reasoning': 'Echtzeit'}"
    | _ => []
    end).


(** The ML agent answers in prose. *)
Definition world_ml_prose : world :=
  scripted (fun a =>
    match a with
    | ml_assessment_agent =>
        answers "ml_assessment_agent" "Die Transaktion wirkt verdaechtig."
    | rule_assessment_agent => rule_suspicious
    | _ => []
    end).

(** The decision agent answers with an outcome of its own. *)
Definition world_decision_maybe : world :=
  scripted (fun a =>
    match a with
    | ml_assessment_agent => ml_suspicious
    | rule_assessment_agent => rule_suspicious
    | coordinator_agent => answers "coordinator_agent" "decision_agent"
    | decision_agent =>
        answers "decision_agent"
          "{'decision': 'maybe', 'confidence': 0.5, 'reasoning': 'unklar'}"
    | _ => []
    end).



(** A review in which the react agent answers a question and the fraud
    manager then declines. *)
Definition review_declined : list pydict :=
  [said "assistant" "Fraud_Manager" "Wie alt ist das Konto?";
   said "user" "react_agent" "Das Konto besteht seit 730 Tagen.";
   said "assistant" "Fraud_Manager" "ABLEHNEN"].

(** A review that the fraud manager ends without a verdict. *)
Definition review_ended : list pydict :=
  [said "user" "react_agent" "Das Konto besteht seit 730 Tagen.";
   said "assistant" "Fraud_Manager" "BEENDEN"].

Definition world_review (review : list pydict) : world :=
  scripted (fun a =>
    match a with
    | ml_assessment_agent => ml_suspicious
    | rule_assessment_agent => rule_suspicious
    | coordinator_agent => answers "coordinator_agent" "generate_explanation"
    | explanation_agent =>
        answers "explanation_agent"
                "Hoher Betrag an einen neuen Empfaenger zu ungewohnter Zeit."
    | react_agent => review
    | _ => []
    end).


(* ================================================================== *)
(** ** More ways to speak of a run *)

(** The history opens with the message the chat [c] was opened with. *)
Definition opens_with (c : chat) (h : list pydict) : bool :=
  match h with
  | m :: _ =>
      match dict_find m (py "content") with
      | Some (PStr s) => str_eqb s (message c)
      | _ => false
      end
  | [] => false
  end.

(** A code point that is a character of its own: below U+110000 and no
    surrogate. *)
Definition is_scalar (c : N) : bool :=
  (c <? 55296) || ((57344 <=? c) && (c <? 1114112)).

(** The profile that [get_user_profile] writes down. *)
Definition user_profile (account_id : str) : pyval :=
  PDict [(py "account_id", PStr account_id);
         (py "account_age_days", PInt 730);
         (py "account_type", PStr (py "private"));
         (py "risk_score", PFloat (flt "0" "15"));
         (py "average_transaction_amount", PFloat (flt "450" "75"));
         (py "transaction_frequency", PFloat (flt "12" "5"));
         (py "previous_flags", PInt 1);
         (py "typical_countries",
          PList [PStr (py "DE"); PStr (py "FR"); PStr (py "ES")]);
         (py "typical_receivers",
          PList [PStr (py "DE89370400440532013000");
                 PStr (py "DE12500105170648489890")])].

(** A message without the key [content], one whose content is [None] (as
    a tool call has it), and a review that holds such a message. *)
Definition without_content : pydict :=
  [(py "role", PStr (py "user")); (py "name", PStr (py "react_agent"))].

Definition tool_call : pydict :=
  [(py "content", PNone); (py "role", PStr (py "user"));
   (py "name", PStr (py "react_agent"))].

(** The fraud manager declines and then takes it back. *)
Definition review_reconsidered : list pydict :=
  [said "assistant" "Fraud_Manager" "Ablehnen";
   said "user" "react_agent" "Die Transaktion wird abgelehnt.";
   said "assistant" "Fraud_Manager" "Doch lieber GENEHMIGEN"].

(** An ML assessor whose history is empty, one whose last message has no
    content, and one whose last message is a tool call. *)
Definition silent_world (ml_history : list pydict) : world :=
  fun _ c =>
    match recipient c with
    | ml_assessment_agent => ml_history
    | rule_assessment_agent => opening c :: rule_suspicious
    | _ => [opening c]
    end.

Section Cases.

Variable unicode_upper : N -> list N.
Variable container_str : pyval -> str.
Variable w : world.
Variable tx : Transaction.

(** The result on the decision branch, from the decision agent's
    answer. *)
Definition decision_result (ml rule x : pyval) : outcome pyval :=
  obind (json_loads x) (fun decision =>
    obind (subscript decision (py "decision")) (fun final_decision =>
      obind (subscript decision (py "reasoning")) (fun reasoning =>
        Ok (PDict [(py "transaction", transaction_dict tx);
                   (py "ml_assessment", ml);
                   (py "rule_assessment", rule);
                   (py "final_decision", final_decision);
                   (py "explanation", reasoning);
                   (py "process_complete", PBool true)])))).

(** The result on the explanation branch, from the explanation and the
    review history. *)
Definition review_result (ml rule e : pyval) (h : list pydict)
  : outcome pyval :=
  obind (extract_decision unicode_upper h) (fun final_decision =>
    Ok (PDict [(py "transaction", transaction_dict tx);
               (py "ml_assessment", ml);
               (py "rule_assessment", rule);
               (py "explanation", e);
               (py "final_decision", PStr final_decision);
               (py "process_complete",
                PBool (negb (str_eqb final_decision (py "undecided"))))])).

(** The ways a run of [process_transaction] can go: where it stops, with
    what, and after which chats. *)
Inductive process_case : outcome pyval * list chat -> Prop :=
| ml_fails (e : exn) :
    obind (ml_reply w tx) json_loads = Raise e ->
    process_case (Raise e, [ml_chat tx; rule_chat tx])
| rule_fails (ml : pyval) (e : exn) :
    obind (ml_reply w tx) json_loads = Ok ml ->
    obind (rule_reply w tx) json_loads = Raise e ->
    process_case (Raise e, [ml_chat tx; rule_chat tx])
| coordinator_fails (ml rule : pyval) (e : exn) :
    obind (ml_reply w tx) json_loads = Ok ml ->
    obind (rule_reply w tx) json_loads = Ok rule ->
    obind (coordinator_reply w tx ml rule) py_strip = Raise e ->
    process_case (Raise e,
                  [ml_chat tx; rule_chat tx; coordinator_chat tx ml rule])
| approves (ml rule : pyval) :
    obind (ml_reply w tx) json_loads = Ok ml ->
    obind (rule_reply w tx) json_loads = Ok rule ->
    obind (coordinator_reply w tx ml rule) py_strip
    = Ok (py "approve_transaction") ->
    process_case
      (Ok (PDict [(py "transaction", transaction_dict tx);
                  (py "ml_assessment", ml);
                  (py "rule_assessment", rule);
                  (py "final_decision", PStr (py "approved"));
                  (py "explanation", PNone);
                  (py "process_complete", PBool true)]),
       [ml_chat tx; rule_chat tx; coordinator_chat tx ml rule])
| decision_reply_fails (ml rule : pyval) (e : exn) :
    obind (ml_reply w tx) json_loads = Ok ml ->
    obind (rule_reply w tx) json_loads = Ok rule ->
    obind (coordinator_reply w tx ml rule) py_strip
    = Ok (py "decision_agent") ->
    decision_reply w tx ml rule = Raise e ->
    process_case (Raise e,
                  [ml_chat tx; rule_chat tx; coordinator_chat tx ml rule;
                   decision_chat tx ml rule])
| decides (ml rule x : pyval) :
    obind (ml_reply w tx) json_loads = Ok ml ->
    obind (rule_reply w tx) json_loads = Ok rule ->
    obind (coordinator_reply w tx ml rule) py_strip
    = Ok (py "decision_agent") ->
    decision_reply w tx ml rule = Ok x ->
    process_case (decision_result ml rule x,
                  [ml_chat tx; rule_chat tx; coordinator_chat tx ml rule;
                   decision_chat tx ml rule])
| explanation_reply_fails (ml rule : pyval) (e : exn) :
    obind (ml_reply w tx) json_loads = Ok ml ->
    obind (rule_reply w tx) json_loads = Ok rule ->
    obind (coordinator_reply w tx ml rule) py_strip
    = Ok (py "generate_explanation") ->
    explanation_reply w tx ml rule = Raise e ->
    process_case (Raise e,
                  [ml_chat tx; rule_chat tx; coordinator_chat tx ml rule;
                   explanation_chat tx ml rule])
| reviews (ml rule e : pyval) :
    obind (ml_reply w tx) json_loads = Ok ml ->
    obind (rule_reply w tx) json_loads = Ok rule ->
    obind (coordinator_reply w tx ml rule) py_strip
    = Ok (py "generate_explanation") ->
    explanation_reply w tx ml rule = Ok e ->
    process_case (review_result ml rule e
                    (review_history container_str w tx ml rule e),
                  [ml_chat tx; rule_chat tx; coordinator_chat tx ml rule;
                   explanation_chat tx ml rule;
                   review_chat container_str tx ml rule e])
| falls_back (ml rule : pyval) (next_step : str) :
    obind (ml_reply w tx) json_loads = Ok ml ->
    obind (rule_reply w tx) json_loads = Ok rule ->
    obind (coordinator_reply w tx ml rule) py_strip = Ok next_step ->
    next_step <> py "approve_transaction" ->
    next_step <> py "decision_agent" ->
    next_step <> py "generate_explanation" ->
    process_case
      (Ok (PDict [(py "transaction", transaction_dict tx);
                  (py "ml_assessment", ml);
                  (py "rule_assessment", rule);
                  (py "error", PStr (error_message next_step));
                  (py "process_complete", PBool false)]),
       [ml_chat tx; rule_chat tx; coordinator_chat tx ml rule]).

(** The ways a run of [interactive_fraud_manager_session] can go. *)
Inductive session_case : outcome str * list chat -> Prop :=
| session_ml_fails (e : exn) :
    obind (session_ml_reply w tx) json_loads = Raise e ->
    session_case (Raise e, [session_ml_chat tx; session_rule_chat tx])
| session_rule_fails (ml : pyval) (e : exn) :
    obind (session_ml_reply w tx) json_loads = Ok ml ->
    obind (session_rule_reply w tx) json_loads = Raise e ->
    session_case (Raise e, [session_ml_chat tx; session_rule_chat tx])
| session_explanation_fails (ml rule : pyval) (e : exn) :
    obind (session_ml_reply w tx) json_loads = Ok ml ->
    obind (session_rule_reply w tx) json_loads = Ok rule ->
    session_explanation_reply w tx ml rule = Raise e ->
    session_case (Raise e,
                  [session_ml_chat tx; session_rule_chat tx;
                   session_explanation_chat tx ml rule])
| session_reviews (ml rule e : pyval) :
    obind (session_ml_reply w tx) json_loads = Ok ml ->
    obind (session_rule_reply w tx) json_loads = Ok rule ->
    session_explanation_reply w tx ml rule = Ok e ->
    session_case (extract_decision unicode_upper
                    (session_history container_str w tx ml rule e),
                  [session_ml_chat tx; session_rule_chat tx;
                   session_explanation_chat tx ml rule;
                   session_review_chat container_str tx ml rule e]).

End Cases.

(** The text of a profile before and after the account id. *)
Definition profile_prefix : str := firstn 18 (get_user_profile []).

Definition profile_rest : str := skipn 20 (get_user_profile []).

(* ================================================================== *)
(** ** The definitions at work *)

Example upper_example :
  upper latin1_upper (py "Bitte genehmigen, größer Überweisung")
  = py "BITTE GENEHMIGEN, GRÖSSER ÜBERWEISUNG".
Proof. vm_compute. reflexivity. Qed.

Example float_repr_examples :
  map float_repr [flt "1250" "00"; flt "89" "99"; flt "0" "15";
                  float_of_parts false [1] [] 16;
                  float_of_parts true [0] [0;0;0;0;2;5] 0;
                  float_of_parts false [0] [0;0;0;1] 0]
  = [py "1250.0"; py "89.99"; py "0.15"; py "1e+16"; py "-2.5e-05";
     py "0.0001"].
Proof. vm_compute. reflexivity. Qed.

Example json_dumps_example :
  json_dumps (PDict [(py "a", PList [PInt 1; PFloat (flt "2" "50")]);
                     (py "ü", PDict []); (py "n", PNone)])
  = jtext "{
  'a': [
    1,
    2.5
  ],
  '\u00fc': {},
  'n': null
}".
Proof. vm_compute. reflexivity. Qed.

Example json_loads_examples :
  map decode
      [jtext "{'probability': 1.2, 'is_fraud': true, 'f': {'a': [1, -2e3]}}";
       jtext " [ 'aü\n😀', null, 0.50, 1E-7, -0 ] ";
       jtext "{'a': 1, 'b': 2, 'a': 3}";
       jtext "{'a': 1,}"; jtext "01"; jtext "1."; jtext "[1 2]"; jtext "tru";
       jtext "'abc"; jtext ""; jtext "approve_transaction"; jtext "{} x"]
  = [Ok (PDict [(py "probability", PFloat (flt "1" "2"));
                (py "is_fraud", PBool true);
                (py "f", PDict [(py "a", PList [PInt 1;
                     PFloat (float_of_parts true [2] [] 3)])])]);
     Ok (PList [PStr (py "aü" ++ [10; 128512]); PNone; PFloat (flt "0" "5");
                PFloat (float_of_parts false [1] [] (-7)); PInt 0]);
     Ok (PDict [(py "a", PInt 3); (py "b", PInt 2)]);
     Raise JSONDecodeError; Raise JSONDecodeError; Raise JSONDecodeError;
     Raise JSONDecodeError; Raise JSONDecodeError; Raise JSONDecodeError;
     Raise JSONDecodeError; Raise JSONDecodeError; Raise JSONDecodeError].
Proof. vm_compute. reflexivity. Qed.

Example json_round_trip :
  let v := PDict [(py "decision", PStr (py "declined"));
                  (py "confidence", PFloat (flt "0" "9"));
                  (py "reasoning", PStr (py "Zu hohes Risiko: " ++ dq
                                         ++ py "größer" ++ dq))] in
  json_loads (PStr (json_dumps v)) = Ok v.
Proof. vm_compute. reflexivity. Qed.

Example get_user_profile_example :
  get_user_profile (py "X") = jtext "{
  'account_id': 'X',
  'account_age_days': 730,
  'account_type': 'private',
  'risk_score': 0.15,
  'average_transaction_amount': 450.75,
  'transaction_frequency': 12.5,
  'previous_flags': 1,
  'typical_countries': [
    'DE',
    'FR',
    'ES'
  ],
  'typical_receivers': [
    'DE89370400440532013000',
    'DE12500105170648489890'
  ]
}".
Proof. vm_compute. reflexivity. Qed.

Example strip_example :
  strip (py "  approve_transaction " ++ [10; 160]) = py "approve_transaction".
Proof. vm_compute. reflexivity. Qed.

Example str_in_examples :
  map (fun x => str_in (py "EXIT") (py x)) ["EXIT"%string; "NEXT EXITS"%string; "EXI T"%string; ""%string]
  = [true; true; false; false].
Proof. vm_compute. reflexivity. Qed.

Example get_user_profile_depends_on_account :
  get_user_profile (py "DE01") <> get_user_profile (py "DE02").
Proof. vm_compute. discriminate. Qed.

Example is_termination_msg_examples :
  map (is_termination_msg latin1_upper)
      [said "assistant" "Fraud_Manager" "Bitte beenden";
       said "assistant" "Fraud_Manager" "weiter";
       [(py "content", PStr [])];
       [(py "content", PNone)];
       [(py "role", PStr (py "tool"))];
       [(py "content", PList [PStr (py "exit")])]]
  = [Ok (PBool true); Ok (PBool false); Ok (PStr []); Ok PNone; Ok (PStr []);
     Raise AttributeError].
Proof. vm_compute. reflexivity. Qed.

Example extract_decision_examples :
  map (extract_decision latin1_upper)
      [[];
       [said "user" "react_agent" "Das Konto ist alt.";
        said "assistant" "Fraud_Manager" "Bitte genehmigen"];
       [said "assistant" "Fraud_Manager" "nicht genehmigen, sondern ablehnen"];
       [said "assistant" "Fraud_Manager" "beenden"];
       [[(py "content", PNone); (py "role", PStr (py "assistant"))];
        said "assistant" "Fraud_Manager" "ABLEHNEN"]]
  = [Ok (py "undecided"); Ok (py "approved"); Ok (py "approved");
     Ok (py "undecided"); Raise AttributeError].
Proof. vm_compute. reflexivity. Qed.

Example realtime_example_run :
  field "final_decision"
        (value_of (run_process world_unsuspicious_declined
                               example_transaction_realtime))
  = Ok (PStr (py "declined")) /\
  agents_of (run_process world_unsuspicious_declined
                         example_transaction_realtime)
  = [ml_assessment_agent; rule_assessment_agent; coordinator_agent;
     decision_agent].
Proof. vm_compute. split; reflexivity. Qed.

(* ================================================================== *)
(** ** Strings *)

Lemma str_eqb_eq (a b : str) : str_eqb a b = true <-> a = b.
Proof.
  unfold str_eqb. destruct (list_eq_dec N.eq_dec a b); split;
    intros; try discriminate; auto.
Qed.

Lemma str_eqb_refl (a : str) : str_eqb a a = true.
Proof. apply str_eqb_eq. reflexivity. Qed.

Lemma str_eqb_neq (a b : str) : a <> b -> str_eqb a b = false.
Proof.
  intros H. unfold str_eqb. destruct (list_eq_dec N.eq_dec a b); congruence.
Qed.

Lemma starts_with_app (n r : str) : starts_with n (n ++ r) = true.
Proof.
  induction n as [|c n IH]; simpl; [reflexivity|].
  rewrite N.eqb_refl. exact IH.
Qed.

Lemma str_in_here (n r : str) : str_in n (n ++ r) = true.
Proof.
  destruct n as [|c n].
  - destruct r; reflexivity.
  - change ((c :: n) ++ r) with (c :: (n ++ r)).
    change (str_in (c :: n) (c :: n ++ r))
      with (starts_with (c :: n) ((c :: n) ++ r) || str_in (c :: n) (n ++ r)).
    rewrite starts_with_app. reflexivity.
Qed.

Lemma str_in_app_r (n a b : str) :
  str_in n b = true -> str_in n (a ++ b) = true.
Proof.
  intros H. induction a as [|c a IH]; simpl; [exact H|].
  rewrite IH. apply orb_true_r.
Qed.

Lemma str_in_nil (c : N) (n : str) : str_in (c :: n) [] = false.
Proof. reflexivity. Qed.

Section Claims.

Variable unicode_upper : N -> list N.
Variable container_str : pyval -> str.

Local Abbreviation upper' := (upper unicode_upper).
Local Abbreviation extract := (extract_decision unicode_upper).
Local Abbreviation process := (process_transaction unicode_upper container_str).
Local Abbreviation session :=
  (interactive_fraud_manager_session unicode_upper container_str).

Lemma upper_app (a b : str) : upper' (a ++ b) = upper' a ++ upper' b.
Proof. unfold upper. apply flat_map_app. Qed.

Lemma upper_GENEHMIGEN : upper' (py "GENEHMIGEN") = GENEHMIGEN.
Proof. reflexivity. Qed.

(** The opening message of the review quotes the approval word. *)
Lemma initial_message_holds_approval (tx ml rule e : pyval) :
  str_in GENEHMIGEN (upper' (initial_message container_str tx ml rule e))
  = true.
Proof.
  unfold initial_message. rewrite !upper_app. rewrite upper_GENEHMIGEN.
  repeat first [ apply str_in_here | apply str_in_app_r ].
Qed.

Lemma session_initial_message_holds_approval (tx ml rule e : pyval) :
  str_in GENEHMIGEN
         (upper' (session_initial_message container_str tx ml rule e))
  = true.
Proof.
  unfold session_initial_message. rewrite !upper_app.
  rewrite upper_GENEHMIGEN.
  repeat first [ apply str_in_here | apply str_in_app_r ].
Qed.

(* ================================================================== *)
(** ** The verdict loop *)

Lemma extract_cons_text (m : pydict) (s : str) (rest : list pydict) :
  dict_find m (py "content") = Some (PStr s) ->
  extract (m :: rest)
  = if str_in GENEHMIGEN (upper' s) then Ok (py "approved")
    else if str_in ABLEHNEN (upper' s) then Ok (py "declined")
    else extract rest.
Proof.
  intros H. cbn [extract_decision]. unfold dict_get. rewrite H. reflexivity.
Qed.

Lemma extract_cons_no_content (m : pydict) (rest : list pydict) :
  dict_find m (py "content") = None -> extract (m :: rest) = extract rest.
Proof.
  intros H. cbn [extract_decision]. unfold dict_get. rewrite H. reflexivity.
Qed.

Lemma extract_cons_not_text (m : pydict) (rest : list pydict) :
  text_message m = false -> extract (m :: rest) = Raise AttributeError.
Proof.
  unfold text_message. intros H. cbn [extract_decision]. unfold dict_get.
  destruct (dict_find m (py "content")) as [[]|]; try discriminate;
    reflexivity.
Qed.

(** Whatever the loop returns is one of the three verdicts. *)
Lemma extract_is_verdict (h : list pydict) (v : str) :
  extract h = Ok v -> is_verdict v.
Proof.
  unfold is_verdict. induction h as [|m h IH]; intros H.
  - cbn in H. injection H as <-. auto.
  - destruct (dict_find m (py "content")) as [x|] eqn:E.
    + destruct (text_message m) eqn:T.
      * unfold text_message in T. rewrite E in T.
        destruct x; try discriminate.
        rewrite (extract_cons_text _ _ _ E) in H.
        destruct (str_in GENEHMIGEN (upper' s)).
        { injection H as <-. auto. }
        destruct (str_in ABLEHNEN (upper' s)).
        { injection H as <-. auto. }
        auto.
      * rewrite (extract_cons_not_text _ _ T) in H. discriminate.
    + rewrite (extract_cons_no_content _ _ E) in H. auto.
Qed.

(** On a history of text messages the loop returns. *)
Lemma extract_total (h : list pydict) :
  forallb text_message h = true -> exists v, extract h = Ok v.
Proof.
  induction h as [|m h IH]; intros H.
  - eexists. reflexivity.
  - cbn [forallb] in H. apply andb_prop in H as [T H].
    destruct (IH H) as [v Hv].
    unfold text_message in T.
    destruct (dict_find m (py "content")) as [x|] eqn:E.
    + destruct x; try discriminate.
      rewrite (extract_cons_text _ _ _ E).
      destruct (str_in GENEHMIGEN (upper' s)); [eexists; reflexivity|].
      destruct (str_in ABLEHNEN (upper' s)); [eexists; reflexivity|].
      eauto.
    + rewrite (extract_cons_no_content _ _ E). eauto.
Qed.

(** Without a verdict word in any message the loop returns "undecided",
    if it returns. *)
Lemma extract_no_word (h : list pydict) (v : str) :
  existsb (holds_verdict unicode_upper) h = false ->
  extract h = Ok v -> v = py "undecided".
Proof.
  induction h as [|m h IH]; intros N H.
  - cbn in H. injection H as <-. reflexivity.
  - cbn [existsb] in N. apply orb_false_elim in N as [Nm N].
    unfold holds_verdict, holds_word in Nm.
    destruct (dict_find m (py "content")) as [x|] eqn:E.
    + destruct (text_message m) eqn:T.
      * unfold text_message in T. rewrite E in T.
        destruct x; try discriminate.
        rewrite (extract_cons_text _ _ _ E) in H.
        apply orb_false_elim in Nm as [Na Nd]. rewrite Na, Nd in H. auto.
      * rewrite (extract_cons_not_text _ _ T) in H. discriminate.
    + rewrite (extract_cons_no_content _ _ E) in H. auto.
Qed.

(** "undecided" is returned only when no message holds a verdict word. *)
Lemma extract_undecided (h : list pydict) :
  extract h = Ok (py "undecided") ->
  existsb (holds_verdict unicode_upper) h = false.
Proof.
  induction h as [|m h IH]; intros H; [reflexivity|].
  cbn [existsb]. unfold holds_verdict at 1. unfold holds_word.
  destruct (dict_find m (py "content")) as [x|] eqn:E.
  - destruct (text_message m) eqn:T.
    + unfold text_message in T. rewrite E in T.
      destruct x; try discriminate.
      rewrite (extract_cons_text _ _ _ E) in H.
      destruct (str_in GENEHMIGEN (upper' s)); [discriminate|].
      destruct (str_in ABLEHNEN (upper' s)); [discriminate|].
      cbn. auto.
    + rewrite (extract_cons_not_text _ _ T) in H. discriminate.
  - rewrite (extract_cons_no_content _ _ E) in H. cbn. auto.
Qed.

(** A history that opens with the review's opening message is read as an
    approval, whatever was said in the review. *)
Lemma opening_message_decides (m : pydict) (rest : list pydict)
      (tx ml rule e : pyval) :
  dict_find m (py "content")
  = Some (PStr (initial_message container_str tx ml rule e)) ->
  extract (m :: rest) = Ok (py "approved").
Proof.
  intros H. rewrite (extract_cons_text _ _ _ H).
  rewrite initial_message_holds_approval. reflexivity.
Qed.

Lemma session_opening_message_decides (m : pydict) (rest : list pydict)
      (tx ml rule e : pyval) :
  dict_find m (py "content")
  = Some (PStr (session_initial_message container_str tx ml rule e)) ->
  extract (m :: rest) = Ok (py "approved").
Proof.
  intros H. rewrite (extract_cons_text _ _ _ H).
  rewrite session_initial_message_holds_approval. reflexivity.
Qed.

(* ================================================================== *)
(** ** The runs of [process_transaction], branch by branch *)

Ltac run_on :=
  cbn [initiate_chats initiate_chat bind ret app lift reply_of item
       nth_error chat_history obind py_strip].

Ltac open_run :=
  unfold ml_reply, rule_reply, coordinator_reply, decision_reply,
    explanation_reply, review_history, ml_chat, rule_chat, coordinator_chat,
    decision_chat, explanation_chat, review_chat in *;
  unfold process_transaction; run_on.

Lemma word_decision_not_approve :
  str_eqb (py "decision_agent") (py "approve_transaction") = false.
Proof. reflexivity. Qed.

Lemma word_explanation_not_approve :
  str_eqb (py "generate_explanation") (py "approve_transaction") = false.
Proof. reflexivity. Qed.

Lemma word_explanation_not_decision :
  str_eqb (py "generate_explanation") (py "decision_agent") = false.
Proof. reflexivity. Qed.

(** The ML assessment does not come through. *)
Lemma process_ml_raises (w : world) (tx : Transaction) (e : exn) :
  obind (ml_reply w tx) json_loads = Raise e ->
  process w tx [] = (Raise e, [ml_chat tx; rule_chat tx]).
Proof.
  intros Hml. open_run. rewrite Hml. reflexivity.
Qed.

(** The rule assessment does not come through. *)
Lemma process_rule_raises (w : world) (tx : Transaction) (ml : pyval)
      (e : exn) :
  obind (ml_reply w tx) json_loads = Ok ml ->
  obind (rule_reply w tx) json_loads = Raise e ->
  process w tx [] = (Raise e, [ml_chat tx; rule_chat tx]).
Proof.
  intros Hml Hrule. open_run. rewrite Hml. run_on. rewrite Hrule.
  reflexivity.
Qed.

Section Assessed.

Variables (w : world) (tx : Transaction) (ml rule : pyval) (c : str).
Hypothesis Hml : obind (ml_reply w tx) json_loads = Ok ml.
Hypothesis Hrule : obind (rule_reply w tx) json_loads = Ok rule.
Hypothesis Hco : coordinator_reply w tx ml rule = Ok (PStr c).

Ltac assessed :=
  generalize Hml Hrule Hco; clear Hml Hrule Hco; intros Hml Hrule Hco;
  open_run; rewrite Hml; run_on; rewrite Hrule; run_on; rewrite Hco; run_on.

Lemma process_branch_approve :
  strip c = py "approve_transaction" ->
  process w tx []
  = (Ok (PDict [(py "transaction", transaction_dict tx);
                (py "ml_assessment", ml);
                (py "rule_assessment", rule);
                (py "final_decision", PStr (py "approved"));
                (py "explanation", PNone);
                (py "process_complete", PBool true)]),
     [ml_chat tx; rule_chat tx; coordinator_chat tx ml rule]).
Proof.
  intros Hstep. assessed. rewrite Hstep, str_eqb_refl. reflexivity.
Qed.

Lemma process_branch_decision (x : pyval) :
  strip c = py "decision_agent" ->
  decision_reply w tx ml rule = Ok x ->
  process w tx []
  = (obind (json_loads x) (fun decision =>
       obind (subscript decision (py "decision")) (fun final_decision =>
         obind (subscript decision (py "reasoning")) (fun reasoning =>
           Ok (PDict [(py "transaction", transaction_dict tx);
                      (py "ml_assessment", ml);
                      (py "rule_assessment", rule);
                      (py "final_decision", final_decision);
                      (py "explanation", reasoning);
                      (py "process_complete", PBool true)])))),
     [ml_chat tx; rule_chat tx; coordinator_chat tx ml rule;
      decision_chat tx ml rule]).
Proof.
  intros Hstep Hx. assessed.
  rewrite Hstep, word_decision_not_approve, str_eqb_refl. run_on.
  rewrite Hx. run_on.
  destruct (json_loads x) as [d|]; [|reflexivity]. run_on.
  destruct (subscript d (py "decision")); [|reflexivity]. run_on.
  destruct (subscript d (py "reasoning")); reflexivity.
Qed.

Lemma process_branch_explanation (e : pyval) :
  strip c = py "generate_explanation" ->
  explanation_reply w tx ml rule = Ok e ->
  process w tx []
  = (obind (extract (review_history container_str w tx ml rule e))
       (fun final_decision =>
          Ok (PDict [(py "transaction", transaction_dict tx);
                     (py "ml_assessment", ml);
                     (py "rule_assessment", rule);
                     (py "explanation", e);
                     (py "final_decision", PStr final_decision);
                     (py "process_complete",
                      PBool (negb (str_eqb final_decision
                                           (py "undecided"))))])),
     [ml_chat tx; rule_chat tx; coordinator_chat tx ml rule;
      explanation_chat tx ml rule;
      review_chat container_str tx ml rule e]).
Proof.
  intros Hstep He. assessed.
  rewrite Hstep, word_explanation_not_approve, word_explanation_not_decision,
    str_eqb_refl. run_on.
  rewrite He. run_on.
  destruct (extract_decision _ _); reflexivity.
Qed.

Lemma process_branch_fallback :
  strip c <> py "approve_transaction" ->
  strip c <> py "decision_agent" ->
  strip c <> py "generate_explanation" ->
  process w tx []
  = (Ok (PDict [(py "transaction", transaction_dict tx);
                (py "ml_assessment", ml);
                (py "rule_assessment", rule);
                (py "error", PStr (error_message (strip c)));
                (py "process_complete", PBool false)]),
     [ml_chat tx; rule_chat tx; coordinator_chat tx ml rule]).
Proof.
  intros N1 N2 N3. assessed.
  rewrite (str_eqb_neq _ _ N1), (str_eqb_neq _ _ N2), (str_eqb_neq _ _ N3).
  reflexivity.
Qed.

End Assessed.

(* ================================================================== *)
(** ** The runs of [interactive_fraud_manager_session] *)

Ltac open_session :=
  unfold session_ml_reply, session_rule_reply, session_explanation_reply,
    session_history, session_ml_chat, session_rule_chat,
    session_explanation_chat, session_review_chat in *;
  unfold interactive_fraud_manager_session; run_on.

Lemma session_run (w : world) (tx : Transaction) (ml rule e : pyval) :
  obind (session_ml_reply w tx) json_loads = Ok ml ->
  obind (session_rule_reply w tx) json_loads = Ok rule ->
  session_explanation_reply w tx ml rule = Ok e ->
  session w tx []
  = (extract (session_history container_str w tx ml rule e),
     [session_ml_chat tx; session_rule_chat tx;
      session_explanation_chat tx ml rule;
      session_review_chat container_str tx ml rule e]).
Proof.
  intros Hml Hrule He. open_session.
  rewrite Hml. run_on. rewrite Hrule. run_on. rewrite He. reflexivity.
Qed.

Lemma session_value_is_verdict (w : world) (tx : Transaction) (s : str) :
  value_of (session w tx []) = Ok s -> is_verdict s.
Proof.
  open_session.
  destruct (obind (last_content (w [] _)) json_loads) as [ml|];
    run_on; [|discriminate].
  destruct (obind (last_content (w [_] _)) json_loads) as [rule|];
    run_on; [|discriminate].
  destruct (last_content (w [_; _] _)) as [e|]; run_on; [|discriminate].
  unfold value_of, fst. apply extract_is_verdict.
Qed.

(* ================================================================== *)
(** ** The claims *)

Lemma verdict_words_differ :
  str_eqb (py "approved") (py "undecided") = false /\
  str_eqb (py "declined") (py "undecided") = false /\
  py "approved" <> py "undecided" /\ py "declined" <> py "undecided".
Proof. repeat split; try reflexivity; discriminate. Qed.

(** C1, as amended. Whenever both assessments decode and the
    coordinator's answer, stripped of white space, is
    [approve_transaction], [process_transaction] returns a result with
    [final_decision = "approved"], [explanation = None] and
    [process_complete = True], having talked to the two assessors and the
    coordinator only. Nothing is asked of [is_realtime], nor of the
    assessments' [is_fraud] and [is_flagged]: it is the coordinator's
    answer that routes. *)
Theorem approve_transaction_result
        (w : world) (tx : Transaction) (ml rule : pyval) (c : str) :
  obind (ml_reply w tx) json_loads = Ok ml ->
  obind (rule_reply w tx) json_loads = Ok rule ->
  coordinator_reply w tx ml rule = Ok (PStr c) ->
  strip c = py "approve_transaction" ->
  field "final_decision" (value_of (process w tx []))
  = Ok (PStr (py "approved")) /\
  field "explanation" (value_of (process w tx [])) = Ok PNone /\
  field "process_complete" (value_of (process w tx [])) = Ok (PBool true) /\
  agents_of (process w tx [])
  = [ml_assessment_agent; rule_assessment_agent; coordinator_agent].
Proof.
  intros Hml Hrule Hco Hstep.
  rewrite (process_branch_approve w tx ml rule c Hml Hrule Hco Hstep).
  repeat split.
Qed.





(** How the explanation branch packs what the verdict loop reads. On the
    [generate_explanation] branch, with a review history of text
    messages, [process_transaction] returns a result whose
    [final_decision] is the verdict [v] the loop reads off the history,
    one of "approved", "declined" and "undecided"; [process_complete] is
    true exactly when [v] is "approved" or "declined"; and [v] is
    "undecided", with [process_complete] false, exactly when no message of
    the history holds a verdict word. *)
Theorem review_result_follows_verdict
        (w : world) (tx : Transaction) (ml rule : pyval) (c : str)
        (e : pyval) :
  obind (ml_reply w tx) json_loads = Ok ml ->
  obind (rule_reply w tx) json_loads = Ok rule ->
  coordinator_reply w tx ml rule = Ok (PStr c) ->
  strip c = py "generate_explanation" ->
  explanation_reply w tx ml rule = Ok e ->
  forallb text_message (review_history container_str w tx ml rule e) = true ->
  exists (v : str) (complete : bool),
    extract (review_history container_str w tx ml rule e) = Ok v /\
    field "final_decision" (value_of (process w tx [])) = Ok (PStr v) /\
    field "process_complete" (value_of (process w tx []))
    = Ok (PBool complete) /\
    is_verdict v /\
    (complete = true <-> v = py "approved" \/ v = py "declined") /\
    (v = py "undecided" <->
     existsb (holds_verdict unicode_upper)
             (review_history container_str w tx ml rule e) = false) /\
    (v = py "undecided" -> complete = false).
Proof.
  intros Hml Hrule Hco Hstep He Htext.
  rewrite (process_branch_explanation w tx ml rule c Hml Hrule Hco e Hstep He).
  destruct (extract_total _ Htext) as [v Hv].
  exists v, (negb (str_eqb v (py "undecided"))).
  rewrite Hv. cbn [obind value_of fst].
  pose proof (extract_is_verdict _ _ Hv) as V.
  destruct verdict_words_differ as (Ea & Ed & Na & Nd).
  repeat split; auto.
  - intros Hc. destruct V as [V|[V|V]]; auto. rewrite V in Hc.
    rewrite str_eqb_refl in Hc. discriminate.
  - intros [Hv'|Hv']; rewrite Hv'; [rewrite Ea|rewrite Ed]; reflexivity.
  - intros ->. apply extract_undecided. exact Hv.
  - intros Hn. apply (extract_no_word _ _ Hn Hv).
  - intros ->. rewrite str_eqb_refl. reflexivity.
Qed.

(** C8. A call of the registered [get_user_profile] tool returns the
    profile text and leaves the state it ran in as it was, so a second
    call with the same account id, made right after, runs in the same
    state and returns the same text. *)
Theorem get_user_profile_idempotent (account_id : str) (t : list chat) :
  fst (_get_user_profile account_id t) = Ok (get_user_profile account_id) /\
  snd (_get_user_profile account_id t) = t /\
  _get_user_profile account_id (snd (_get_user_profile account_id t))
  = _get_user_profile account_id t.
Proof. repeat split. Qed.

(** C9. The text [get_user_transaction_history] returns is the same for
    every two account ids, also through the registered tool in any
    state. *)
Theorem transaction_history_ignores_account (a b : str) (t : list chat) :
  get_user_transaction_history a = get_user_transaction_history b /\
  _get_user_transaction_history a t = _get_user_transaction_history b t.
Proof. split; reflexivity. Qed.

(** The values of the interactive session. Whatever
    [interactive_fraud_manager_session] returns is one of
    "approved", "declined" and "undecided"; and it does return, with the
    verdict the loop reads off the review history, when the assessments
    decode, the explanation has a content and the history consists of
    text messages; a history in which no message holds a verdict word
    gives "undecided". *)
Theorem session_returns_verdict (w : world) (tx : Transaction) :
  (forall s, value_of (session w tx []) = Ok s -> is_verdict s) /\
  (forall ml rule e,
      obind (session_ml_reply w tx) json_loads = Ok ml ->
      obind (session_rule_reply w tx) json_loads = Ok rule ->
      session_explanation_reply w tx ml rule = Ok e ->
      forallb text_message (session_history container_str w tx ml rule e)
      = true ->
      exists s,
        value_of (session w tx []) = Ok s /\
        is_verdict s /\
        (existsb (holds_verdict unicode_upper)
                 (session_history container_str w tx ml rule e) = false ->
         s = py "undecided")).
Proof.
  split.
  - apply session_value_is_verdict.
  - intros ml rule e Hml Hrule He Htext.
    rewrite (session_run w tx ml rule e Hml Hrule He).
    destruct (extract_total _ Htext) as [v Hv].
    exists v. cbn [value_of fst]. split; [exact Hv|]. split.
    + exact (extract_is_verdict _ _ Hv).
    + intros Hn. exact (extract_no_word _ _ Hn Hv).
Qed.

End Claims.

(* ================================================================== *)
(** ** The claims at concrete runs *)

(** The amended C1 at the program's real-time example, approved by the
    coordinator. *)
Lemma approve_transaction_result_witness :
  strip (coordinator_of world_unsuspicious_approved
                        example_transaction_realtime)
  = py "approve_transaction" /\
  field "final_decision"
        (value_of (run_process world_unsuspicious_approved
                               example_transaction_realtime))
  = Ok (PStr (py "approved")) /\
  field "explanation"
        (value_of (run_process world_unsuspicious_approved
                               example_transaction_realtime))
  = Ok PNone /\
  field "process_complete"
        (value_of (run_process world_unsuspicious_approved
                               example_transaction_realtime))
  = Ok (PBool true) /\
  agents_of (run_process world_unsuspicious_approved
                         example_transaction_realtime)
  = [ml_assessment_agent; rule_assessment_agent; coordinator_agent].
Proof.
  split; [vm_compute; reflexivity|].
  apply (approve_transaction_result
           latin1_upper no_container_str world_unsuspicious_approved
           example_transaction_realtime
           (ml_of world_unsuspicious_approved example_transaction_realtime)
           (rule_of world_unsuspicious_approved example_transaction_realtime)
           (coordinator_of world_unsuspicious_approved
                           example_transaction_realtime));
    vm_compute; reflexivity.
Defined.

(** C1 as stated fails: neither assessment is suspicious, the coordinator
    answers [decision_agent] all the same, and the transaction ends
    declined. *)
Lemma unsuspicious_transaction_declined :
  field "is_fraud"
        (Ok (ml_of world_unsuspicious_declined example_transaction_realtime))
  = Ok (PBool false) /\
  field "is_flagged"
        (Ok (rule_of world_unsuspicious_declined example_transaction_realtime))
  = Ok (PBool false) /\
  field "final_decision"
        (value_of (run_process world_unsuspicious_declined
                               example_transaction_realtime))
  = Ok (PStr (py "declined")) /\
  field "explanation"
        (value_of (run_process world_unsuspicious_declined
                               example_transaction_realtime))
  = Ok (PStr (py "Echtzeit")).
Proof. vm_compute. repeat split. Qed.



(** C3 fails on the code. The fraud manager asks a question, is answered
    and types ABLEHNEN; no message of the review holds the approval word.
    The history opens with the program's own opening message, which quotes
    GENEHMIGEN, and so the verdict is "approved", from
    [process_transaction] and from the interactive session alike. *)
Lemma declined_review_is_approved :
  map (holds_word latin1_upper GENEHMIGEN) review_declined
  = [false; false; false] /\
  map (holds_word latin1_upper ABLEHNEN) review_declined
  = [false; false; true] /\
  field "final_decision"
        (value_of (run_process (world_review review_declined)
                               example_transaction_manual))
  = Ok (PStr (py "approved")) /\
  field "process_complete"
        (value_of (run_process (world_review review_declined)
                               example_transaction_manual))
  = Ok (PBool true) /\
  value_of (run_session (world_review review_declined)
                        example_transaction_manual)
  = Ok (py "approved").
Proof. vm_compute. repeat split. Qed.







(** The packing of the verdict at the review in which the fraud manager
    declines. *)
Lemma review_result_follows_verdict_witness :
  forallb text_message
          (review_history no_container_str (world_review review_declined)
             example_transaction_manual
             (ml_of (world_review review_declined) example_transaction_manual)
             (rule_of (world_review review_declined)
                      example_transaction_manual)
             (PStr (py "Hoher Betrag an einen neuen Empfaenger zu ungewohnter Zeit.")))
  = true /\
  exists (v : str) (complete : bool),
    field "final_decision"
          (value_of (run_process (world_review review_declined)
                                 example_transaction_manual))
    = Ok (PStr v) /\
    field "process_complete"
          (value_of (run_process (world_review review_declined)
                                 example_transaction_manual))
    = Ok (PBool complete) /\
    is_verdict v /\
    (complete = true <-> v = py "approved" \/ v = py "declined").
Proof.
  split; [vm_compute; reflexivity|].
  destruct (review_result_follows_verdict
              latin1_upper no_container_str (world_review review_declined)
              example_transaction_manual
              (ml_of (world_review review_declined)
                     example_transaction_manual)
              (rule_of (world_review review_declined)
                       example_transaction_manual)
              (py "generate_explanation")
              (PStr (py "Hoher Betrag an einen neuen Empfaenger zu ungewohnter Zeit.")))
    as (v & complete & _ & Hf & Hc & Hv & Hiff & _);
    try (vm_compute; reflexivity).
  exists v, complete. repeat split; try assumption; apply Hiff.
Defined.

(** The values of the session at the session that the fraud manager
    ends. *)
Lemma session_returns_verdict_witness :
  exists s,
    value_of (run_session (world_review review_ended)
                          example_transaction_manual) = Ok s /\
    is_verdict s.
Proof.
  destruct (session_returns_verdict
              latin1_upper no_container_str (world_review review_ended)
              example_transaction_manual) as [_ H].
  destruct (H (ml_of (world_review review_ended) example_transaction_manual)
              (rule_of (world_review review_ended) example_transaction_manual)
              (PStr (py "Hoher Betrag an einen neuen Empfaenger zu ungewohnter Zeit.")))
    as (s & Hs & Hv & _); try (vm_compute; reflexivity).
  exists s. split; assumption.
Defined.

(** C7 fails on the code. The fraud manager ends the review with BEENDEN;
    no message of the review holds a verdict word, so the review never
    reaches a verdict. The history opens with the program's own opening
    message, which quotes GENEHMIGEN, and [process_transaction] reports
    [final_decision = "approved"] with [process_complete = True] where
    the claim asks for "undecided" and [False]. *)
Lemma ended_review_is_reported_complete :
  map (holds_verdict latin1_upper) review_ended = [false; false] /\
  map (holds_termination latin1_upper) review_ended = [false; true] /\
  field "final_decision"
        (value_of (run_process (world_review review_ended)
                               example_transaction_manual))
  = Ok (PStr (py "approved")) /\
  field "process_complete"
        (value_of (run_process (world_review review_ended)
                               example_transaction_manual))
  = Ok (PBool true).
Proof. vm_compute. repeat split. Qed.

(** C10 fails on the code. In the interactive session the fraud manager
    ends the review with BEENDEN and gives no verdict; the history opens
    with the session's own opening message, which quotes GENEHMIGEN, and
    the session returns "approved" where the claim asks for
    "undecided". *)
Lemma ended_session_is_approved :
  map (holds_verdict latin1_upper) review_ended = [false; false] /\
  map (holds_termination latin1_upper) review_ended = [false; true] /\
  value_of (run_session (world_review review_ended)
                        example_transaction_manual)
  = Ok (py "approved").
Proof. vm_compute. repeat split. Qed.

(* ================================================================== *)
(** ** Beyond the claims: the verdict loop *)

Section Beyond.

Variable unicode_upper : N -> list N.
Variable container_str : pyval -> str.

Local Abbreviation upper' := (upper unicode_upper).
Local Abbreviation extract := (extract_decision unicode_upper).
Local Abbreviation process := (process_transaction unicode_upper container_str).
Local Abbreviation session :=
  (interactive_fraud_manager_session unicode_upper container_str).
Local Abbreviation verdict_in := (holds_verdict unicode_upper).
Local Abbreviation word_in := (holds_word unicode_upper).

(** How the loop treats its first message, by the kind of message. *)
Lemma extract_cons_cases (m : pydict) (rest : list pydict) :
  (text_message m = false /\ extract (m :: rest) = Raise AttributeError) \/
  (text_message m = true /\ word_in GENEHMIGEN m = true /\
   extract (m :: rest) = Ok (py "approved")) \/
  (text_message m = true /\ word_in GENEHMIGEN m = false /\
   word_in ABLEHNEN m = true /\ extract (m :: rest) = Ok (py "declined")) \/
  (text_message m = true /\ verdict_in m = false /\
   extract (m :: rest) = extract rest).
Proof.
  unfold holds_verdict, holds_word.
  destruct (text_message m) eqn:T.
  - right. unfold text_message in T.
    destruct (dict_find m (py "content")) as [x|] eqn:E.
    + destruct x; try discriminate.
      rewrite (extract_cons_text unicode_upper _ _ _ E).
      destruct (str_in GENEHMIGEN (upper' s)); [left; auto|].
      destruct (str_in ABLEHNEN (upper' s)); [right; left; auto|].
      right; right; auto.
    + rewrite (extract_cons_no_content unicode_upper _ _ E).
      right; right; auto.
  - left. split; [reflexivity|].
    apply extract_cons_not_text. exact T.
Qed.

Ltac words :=
  unfold holds_verdict in *;
  repeat match goal with
         | H : holds_word _ _ _ = _, H' : context [holds_word _ _ _] |- _ =>
             rewrite H in H'
         end;
  cbn [orb] in *; try congruence.

(** X7. The first verdict is final. Once a message holds a verdict word,
    what is said after it is never read: the loop gives on the whole
    history what it gives on the history cut off after that message. *)
Theorem later_messages_are_not_read (pre post : list pydict) (m : pydict) :
  verdict_in m = true ->
  extract (pre ++ m :: post) = extract (pre ++ [m]).
Proof.
  intros Hm. induction pre as [|a pre IH].
  - cbn [app].
    destruct (extract_cons_cases m post) as [[T H]|[(T&G&H)|[(T&G&A&H)|(T&V&H)]]];
      destruct (extract_cons_cases m []) as [[T' H']|[(T'&G'&H')|[(T'&G'&A'&H')|(T'&V'&H')]]];
      words.
  - cbn [app].
    destruct (extract_cons_cases a (pre ++ m :: post))
      as [[T H]|[(T&G&H)|[(T&G&A&H)|(T&V&H)]]];
      destruct (extract_cons_cases a (pre ++ [m]))
        as [[T' H']|[(T'&G'&H')|[(T'&G'&A'&H')|(T'&V'&H')]]];
      words.
Qed.

(** A history up to its first message that is no text or holds a verdict
    word: the loop walks through [pre] and stops at [m]. *)
Lemma extract_skips (pre : list pydict) (rest : list pydict) :
  forallb text_message pre = true ->
  existsb verdict_in pre = false ->
  extract (pre ++ rest) = extract rest.
Proof.
  induction pre as [|a pre IH]; intros T V; [reflexivity|].
  cbn [forallb] in T. apply andb_prop in T as [Ta T].
  cbn [existsb] in V. apply orb_false_elim in V as [Va V].
  cbn [app].
  destruct (extract_cons_cases a (pre ++ rest))
    as [[T' H]|[(T'&G&H)|[(T'&G&A&H)|(T'&V'&H)]]].
  - congruence.
  - unfold holds_verdict in Va. rewrite G in Va. discriminate.
  - unfold holds_verdict in Va. rewrite A, orb_true_r in Va. discriminate.
  - rewrite H. auto.
Qed.

(** Where the loop stops, if it does not run to the end. *)
Lemma extract_stops (h : list pydict) :
  (forallb text_message h = true /\ existsb verdict_in h = false) \/
  exists pre m post,
    h = pre ++ m :: post /\
    forallb text_message pre = true /\
    existsb verdict_in pre = false /\
    (text_message m = false \/ verdict_in m = true).
Proof.
  induction h as [|a h IH].
  - left. split; reflexivity.
  - destruct (text_message a) eqn:Ta.
    + destruct (verdict_in a) eqn:Va.
      * right. exists [], a, h. cbn. auto.
      * destruct IH as [[T V]|(pre & m & post & -> & T & V & D)].
        { left. cbn [forallb existsb]. rewrite Ta, Va, T, V. auto. }
        right. exists (a :: pre), m, post.
        cbn [app forallb existsb]. rewrite Ta, Va, T, V. auto.
    + right. exists [], a, h. cbn. auto.
Qed.

(** X8. The verdict is that of the first message that holds a verdict
    word. The loop answers "approved" exactly when the history has a
    message with the approval word before which there are only text
    messages without a verdict word, and "declined" exactly when that
    first message holds the decline word and not the approval word. *)
Theorem verdict_of_first_decisive_message (h : list pydict) :
  (extract h = Ok (py "approved") <->
   exists pre m post,
     h = pre ++ m :: post /\
     forallb text_message pre = true /\
     existsb verdict_in pre = false /\
     word_in GENEHMIGEN m = true) /\
  (extract h = Ok (py "declined") <->
   exists pre m post,
     h = pre ++ m :: post /\
     forallb text_message pre = true /\
     existsb verdict_in pre = false /\
     word_in GENEHMIGEN m = false /\
     word_in ABLEHNEN m = true).
Proof.
  assert (Hword : forall m w, word_in w m = true -> text_message m = true).
  { intros m w. unfold holds_word, text_message.
    destruct (dict_find m (py "content")) as [[]|]; auto; discriminate. }
  split; split.
  - intros H.
    destruct (extract_stops h) as [[T V]|(pre & m & post & -> & T & V & D)].
    + destruct (extract_total unicode_upper _ T) as [v Hv].
      rewrite (extract_no_word unicode_upper _ _ V Hv) in Hv.
      rewrite Hv in H. discriminate.
    + exists pre, m, post. repeat split; auto.
      rewrite (extract_skips _ _ T V) in H.
      destruct (extract_cons_cases m post)
        as [[T' H']|[(T'&G&H')|[(T'&G&A&H')|(T'&V'&H')]]]; try congruence.
      * rewrite H' in H. discriminate.
      * destruct D; congruence.
  - intros (pre & m & post & -> & T & V & G).
    rewrite (extract_skips _ _ T V).
    destruct (extract_cons_cases m post)
      as [[T' H']|[(T'&G'&H')|[(T'&G'&A&H')|(T'&V'&H')]]]; try congruence.
    + rewrite (Hword _ _ G) in T'. discriminate.
    + unfold holds_verdict in V'. rewrite G in V'. discriminate.
  - intros H.
    destruct (extract_stops h) as [[T V]|(pre & m & post & -> & T & V & D)].
    + destruct (extract_total unicode_upper _ T) as [v Hv].
      rewrite (extract_no_word unicode_upper _ _ V Hv) in Hv.
      rewrite Hv in H. discriminate.
    + exists pre, m, post.
      rewrite (extract_skips _ _ T V) in H.
      destruct (extract_cons_cases m post)
        as [[T' H']|[(T'&G&H')|[(T'&G&A&H')|(T'&V'&H')]]]; try congruence.
      * rewrite H' in H. discriminate.
      * repeat split; auto.
      * destruct D; congruence.
  - intros (pre & m & post & -> & T & V & G & A).
    rewrite (extract_skips _ _ T V).
    destruct (extract_cons_cases m post)
      as [[T' H']|[(T'&G'&H')|[(T'&G'&A'&H')|(T'&V'&H')]]]; try congruence.
    + rewrite (Hword _ _ A) in T'. discriminate.
    + unfold holds_verdict in V'. rewrite A, orb_true_r in V'. discriminate.
Qed.

(** X9. The loop raises exactly when a message that is no text (its
    content is [None], a list, a number ...) comes before any verdict
    word; the exception is [AttributeError]. *)
Theorem extract_raises_on_non_text (h : list pydict) (e : exn) :
  extract h = Raise e <->
  e = AttributeError /\
  exists pre m post,
    h = pre ++ m :: post /\
    forallb text_message pre = true /\
    existsb verdict_in pre = false /\
    text_message m = false.
Proof.
  split.
  - intros H.
    destruct (extract_stops h) as [[T V]|(pre & m & post & -> & T & V & D)].
    + destruct (extract_total unicode_upper _ T) as [v Hv]. congruence.
    + rewrite (extract_skips _ _ T V) in H.
      destruct (extract_cons_cases m post)
        as [[T' H']|[(T'&G&H')|[(T'&G&A&H')|(T'&V'&H')]]]; try congruence.
      * split; [congruence|]. exists pre, m, post. auto.
      * destruct D; congruence.
  - intros (-> & pre & m & post & -> & T & V & N).
    rewrite (extract_skips _ _ T V).
    apply extract_cons_not_text. exact N.
Qed.

(** X10. [is_termination_msg] is true exactly on the messages whose content
    is a string that holds, upper-cased, BEENDEN, TERMINATE or EXIT; it is
    false, without raising, on a message without content or with an empty
    or [None] content, and it raises [AttributeError] on a content that is
    true and no string. *)
Theorem is_termination_msg_spec (m : pydict) :
  match is_termination_msg unicode_upper m with
  | Ok v => truthy v = holds_termination unicode_upper m
  | Raise e =>
      e = AttributeError /\
      exists x, dict_find m (py "content") = Some x /\ truthy x = true /\
                text_message m = false
  end.
Proof.
  unfold is_termination_msg, holds_termination, holds_word, text_message,
    dict_get, termination_commands.
  destruct (dict_find m (py "content")) as [x|] eqn:E.
  - destruct (truthy x) eqn:Tx.
    + destruct x; cbn [py_upper obind];
        try (split; [reflexivity|eexists; repeat split; eauto]).
      cbn [truthy existsb]. reflexivity.
    + rewrite Tx. destruct x; try reflexivity.
      destruct s; [reflexivity|discriminate].
  - reflexivity.
Qed.

(* ================================================================== *)
(** ** Beyond the claims: the runs as a whole *)

Ltac run_on' :=
  cbn [initiate_chats initiate_chat bind ret app lift reply_of item
       nth_error chat_history obind py_strip].

Ltac open_run' :=
  unfold ml_reply, rule_reply, coordinator_reply, decision_reply,
    explanation_reply, review_history, ml_chat, rule_chat, coordinator_chat,
    decision_chat, explanation_chat, review_chat in *;
  unfold process_transaction; run_on'.

Section Assessed'.

Variables (w : world) (tx : Transaction) (ml rule : pyval).
Hypothesis Hml : obind (ml_reply w tx) json_loads = Ok ml.
Hypothesis Hrule : obind (rule_reply w tx) json_loads = Ok rule.

Ltac assessed' :=
  generalize Hml Hrule; clear Hml Hrule; intros Hml Hrule;
  open_run'; rewrite Hml; run_on'; rewrite Hrule; run_on'.

Lemma process_coordinator_raises (e : exn) :
  obind (coordinator_reply w tx ml rule) py_strip = Raise e ->
  process w tx []
  = (Raise e, [ml_chat tx; rule_chat tx; coordinator_chat tx ml rule]).
Proof.
  intros Hco. assessed'. rewrite Hco. reflexivity.
Qed.

Lemma process_decision_reply_raises (c : str) (e : exn) :
  coordinator_reply w tx ml rule = Ok (PStr c) ->
  strip c = py "decision_agent" ->
  decision_reply w tx ml rule = Raise e ->
  process w tx []
  = (Raise e, [ml_chat tx; rule_chat tx; coordinator_chat tx ml rule;
               decision_chat tx ml rule]).
Proof.
  intros Hco Hstep Hx. assessed'. rewrite Hco. run_on'.
  rewrite Hstep, word_decision_not_approve, str_eqb_refl. run_on'.
  rewrite Hx. reflexivity.
Qed.

Lemma process_explanation_reply_raises (c : str) (e : exn) :
  coordinator_reply w tx ml rule = Ok (PStr c) ->
  strip c = py "generate_explanation" ->
  explanation_reply w tx ml rule = Raise e ->
  process w tx []
  = (Raise e, [ml_chat tx; rule_chat tx; coordinator_chat tx ml rule;
               explanation_chat tx ml rule]).
Proof.
  intros Hco Hstep Hx. assessed'. rewrite Hco. run_on'.
  rewrite Hstep, word_explanation_not_approve,
    word_explanation_not_decision, str_eqb_refl. run_on'.
  rewrite Hx. reflexivity.
Qed.

End Assessed'.

Lemma strip_reply (o : outcome pyval) (next_step : str) :
  obind o py_strip = Ok next_step ->
  exists c, o = Ok (PStr c) /\ strip c = next_step.
Proof.
  destruct o as [x|]; cbn [obind]; [|discriminate].
  destruct x; cbn [py_strip]; try discriminate.
  intros H. injection H as <-. eauto.
Qed.

(** Every run of [process_transaction] goes one of the nine ways. *)
Lemma process_cases (w : world) (tx : Transaction) :
  process_case unicode_upper container_str w tx (process w tx []).
Proof.
  destruct (obind (ml_reply w tx) json_loads) as [ml|e] eqn:Hml.
  2:{ rewrite (process_ml_raises unicode_upper container_str w tx e Hml).
      exact (ml_fails unicode_upper container_str w tx e Hml). }
  destruct (obind (rule_reply w tx) json_loads) as [rule|e] eqn:Hrule.
  2:{ rewrite (process_rule_raises unicode_upper container_str w tx ml e
                                   Hml Hrule).
      exact (rule_fails unicode_upper container_str w tx ml e Hml Hrule). }
  destruct (obind (coordinator_reply w tx ml rule) py_strip)
    as [next_step|e] eqn:Hco.
  2:{ rewrite (process_coordinator_raises w tx ml rule Hml Hrule e Hco).
      exact (coordinator_fails unicode_upper container_str w tx ml rule e
                               Hml Hrule Hco). }
  destruct (strip_reply _ _ Hco) as (c & Hc & Hstep).
  destruct (list_eq_dec N.eq_dec next_step (py "approve_transaction"))
    as [E1|N1].
  { rewrite E1 in Hco, Hstep.
    rewrite (process_branch_approve unicode_upper container_str w tx ml rule
               c Hml Hrule Hc Hstep).
    exact (approves unicode_upper container_str w tx ml rule Hml Hrule Hco). }
  destruct (list_eq_dec N.eq_dec next_step (py "decision_agent")) as [E2|N2].
  { rewrite E2 in Hco, Hstep.
    destruct (decision_reply w tx ml rule) as [x|e] eqn:Hx.
    - rewrite (process_branch_decision unicode_upper container_str w tx ml
                 rule c Hml Hrule Hc x Hstep Hx).
      exact (decides unicode_upper container_str w tx ml rule x
                     Hml Hrule Hco Hx).
    - rewrite (process_decision_reply_raises w tx ml rule Hml Hrule c e
                 Hc Hstep Hx).
      exact (decision_reply_fails unicode_upper container_str w tx ml rule e
                                  Hml Hrule Hco Hx). }
  destruct (list_eq_dec N.eq_dec next_step (py "generate_explanation"))
    as [E3|N3].
  { rewrite E3 in Hco, Hstep.
    destruct (explanation_reply w tx ml rule) as [x|e] eqn:Hx.
    - rewrite (process_branch_explanation unicode_upper container_str w tx
                 ml rule c Hml Hrule Hc x Hstep Hx).
      exact (reviews unicode_upper container_str w tx ml rule x
                     Hml Hrule Hco Hx).
    - rewrite (process_explanation_reply_raises w tx ml rule Hml Hrule c e
                 Hc Hstep Hx).
      exact (explanation_reply_fails unicode_upper container_str w tx ml
                                     rule e Hml Hrule Hco Hx). }
  rewrite <- Hstep in N1, N2, N3.
  rewrite (process_branch_fallback unicode_upper container_str w tx ml rule
             c Hml Hrule Hc N1 N2 N3).
  rewrite Hstep in *.
  exact (falls_back unicode_upper container_str w tx ml rule next_step
                    Hml Hrule Hco N1 N2 N3).
Qed.

Lemma session_ml_raises (w : world) (tx : Transaction) (e : exn) :
  obind (session_ml_reply w tx) json_loads = Raise e ->
  session w tx [] = (Raise e, [session_ml_chat tx; session_rule_chat tx]).
Proof.
  intros Hml.
  unfold session_ml_reply, session_ml_chat, session_rule_chat in *.
  unfold interactive_fraud_manager_session. run_on'.
  rewrite Hml. reflexivity.
Qed.

Lemma session_rule_raises (w : world) (tx : Transaction) (ml : pyval)
      (e : exn) :
  obind (session_ml_reply w tx) json_loads = Ok ml ->
  obind (session_rule_reply w tx) json_loads = Raise e ->
  session w tx [] = (Raise e, [session_ml_chat tx; session_rule_chat tx]).
Proof.
  intros Hml Hrule.
  unfold session_ml_reply, session_rule_reply, session_ml_chat,
    session_rule_chat in *.
  unfold interactive_fraud_manager_session. run_on'.
  rewrite Hml. run_on'. rewrite Hrule. reflexivity.
Qed.

Lemma session_explanation_raises (w : world) (tx : Transaction)
      (ml rule : pyval) (e : exn) :
  obind (session_ml_reply w tx) json_loads = Ok ml ->
  obind (session_rule_reply w tx) json_loads = Ok rule ->
  session_explanation_reply w tx ml rule = Raise e ->
  session w tx []
  = (Raise e, [session_ml_chat tx; session_rule_chat tx;
               session_explanation_chat tx ml rule]).
Proof.
  intros Hml Hrule Hx.
  unfold session_ml_reply, session_rule_reply, session_explanation_reply,
    session_ml_chat, session_rule_chat, session_explanation_chat in *.
  unfold interactive_fraud_manager_session. run_on'.
  rewrite Hml. run_on'. rewrite Hrule. run_on'. rewrite Hx. reflexivity.
Qed.

(** Every run of [interactive_fraud_manager_session] goes one of the four
    ways. *)
Lemma session_cases (w : world) (tx : Transaction) :
  session_case unicode_upper container_str w tx (session w tx []).
Proof.
  destruct (obind (session_ml_reply w tx) json_loads) as [ml|e] eqn:Hml.
  2:{ rewrite (session_ml_raises w tx e Hml).
      exact (session_ml_fails unicode_upper container_str w tx e Hml). }
  destruct (obind (session_rule_reply w tx) json_loads) as [rule|e] eqn:Hrule.
  2:{ rewrite (session_rule_raises w tx ml e Hml Hrule).
      exact (session_rule_fails unicode_upper container_str w tx ml e
                                Hml Hrule). }
  destruct (session_explanation_reply w tx ml rule) as [x|e] eqn:Hx.
  - rewrite (session_run unicode_upper container_str w tx ml rule x
               Hml Hrule Hx).
    exact (session_reviews unicode_upper container_str w tx ml rule x
                           Hml Hrule Hx).
  - rewrite (session_explanation_raises w tx ml rule e Hml Hrule Hx).
    exact (session_explanation_fails unicode_upper container_str w tx ml
                                     rule e Hml Hrule Hx).
Qed.

(** X1. The agents of a run of [process_transaction]. The run talks to
    the ML assessor, the rule assessor, the coordinator and then to the
    decision agent, or to the explanation agent and the react agent, in
    this order, each at most once, always as the fraud manager; it never
    talks to both the decision agent and the explanation or react agent,
    and to the react agent only after the explanation agent. A run that
    returns has talked to the coordinator, and has finished the branch it
    took. *)
Theorem process_agents_in_order (w : world) (tx : Transaction) :
  (agents_of (process w tx [])
   = [ml_assessment_agent; rule_assessment_agent] \/
   agents_of (process w tx [])
   = [ml_assessment_agent; rule_assessment_agent; coordinator_agent] \/
   agents_of (process w tx [])
   = [ml_assessment_agent; rule_assessment_agent; coordinator_agent;
      decision_agent] \/
   agents_of (process w tx [])
   = [ml_assessment_agent; rule_assessment_agent; coordinator_agent;
      explanation_agent] \/
   agents_of (process w tx [])
   = [ml_assessment_agent; rule_assessment_agent; coordinator_agent;
      explanation_agent; react_agent]) /\
  Forall (fun c => sender c = fraud_manager) (snd (process w tx [])) /\
  (forall r, value_of (process w tx []) = Ok r ->
     agents_of (process w tx [])
     = [ml_assessment_agent; rule_assessment_agent; coordinator_agent] \/
     agents_of (process w tx [])
     = [ml_assessment_agent; rule_assessment_agent; coordinator_agent;
        decision_agent] \/
     agents_of (process w tx [])
     = [ml_assessment_agent; rule_assessment_agent; coordinator_agent;
        explanation_agent; react_agent]).
Proof.
  destruct (process_cases w tx); unfold agents_of, value_of;
    cbn [snd fst map recipient ml_chat rule_chat coordinator_chat
         decision_chat explanation_chat review_chat];
    (split; [tauto|split; [repeat constructor|]]);
    intros r Hr; try discriminate; tauto.
Qed.

(** X2. The shape of a result. Whatever [process_transaction] returns is a
    dict that carries the transaction as it was given, the two decoded
    assessments and a boolean [process_complete]; it has either the keys
    [final_decision] and [explanation] and no [error], or the key [error]
    with a message and neither of the two; and [process_complete] is
    false only with an [error] or with the final decision "undecided". *)
Theorem process_result_shape (w : world) (tx : Transaction) (r : pyval) :
  value_of (process w tx []) = Ok r ->
  exists (ml rule : pyval) (complete : bool),
    obind (ml_reply w tx) json_loads = Ok ml /\
    obind (rule_reply w tx) json_loads = Ok rule /\
    field "transaction" (Ok r) = Ok (transaction_dict tx) /\
    field "ml_assessment" (Ok r) = Ok ml /\
    field "rule_assessment" (Ok r) = Ok rule /\
    field "process_complete" (Ok r) = Ok (PBool complete) /\
    ((exists fd e, field "final_decision" (Ok r) = Ok fd /\
                   field "explanation" (Ok r) = Ok e /\
                   field "error" (Ok r) = Raise KeyError /\
                   (complete = false -> fd = PStr (py "undecided"))) \/
     (exists msg, field "error" (Ok r) = Ok (PStr msg) /\
                  field "final_decision" (Ok r) = Raise KeyError /\
                  field "explanation" (Ok r) = Raise KeyError /\
                  complete = false)).
Proof.
  unfold value_of.
  destruct (process_cases w tx) as
    [e Hml|ml e Hml Hrule|ml rule e Hml Hrule Hco|ml rule Hml Hrule Hco
    |ml rule e Hml Hrule Hco Hx|ml rule x Hml Hrule Hco Hx
    |ml rule e Hml Hrule Hco Hx|ml rule e Hml Hrule Hco Hx
    |ml rule next_step Hml Hrule Hco N1 N2 N3];
    cbn [fst]; intros Hr; try discriminate.
  - injection Hr as <-. exists ml, rule, true.
    repeat split; auto. left. exists (PStr (py "approved")), PNone.
    repeat split. discriminate.
  - unfold decision_result in Hr.
    destruct (json_loads x) as [d|]; cbn [obind] in Hr; [|discriminate].
    destruct (subscript d (py "decision")) as [fd|]; cbn [obind] in Hr;
      [|discriminate].
    destruct (subscript d (py "reasoning")) as [rs|]; cbn [obind] in Hr;
      [|discriminate].
    injection Hr as <-. exists ml, rule, true.
    repeat split; auto. left. exists fd, rs. repeat split. discriminate.
  - unfold review_result in Hr.
    destruct (extract_decision _ _) as [v|] eqn:Hv; cbn [obind] in Hr;
      [|discriminate].
    injection Hr as <-.
    exists ml, rule, (negb (str_eqb v (py "undecided"))).
    repeat split; auto. left. exists (PStr v), e. repeat split.
    intros Hc. apply negb_false_iff in Hc. apply str_eqb_eq in Hc.
    congruence.
  - injection Hr as <-. exists ml, rule, false.
    repeat split; auto. right. exists (error_message next_step).
    repeat split.
Qed.

(** X3. Where [process_transaction] fails. An exception leaves the run at
    the step that raised it, after the chats made so far: after the two
    assessment chats when an assessment cannot be read or decoded, after
    the coordinator's chat when its answer cannot be read or stripped,
    after the decision agent's chat when its answer cannot be read,
    decoded or indexed, after the explanation agent's chat when its
    answer cannot be read, and after the review when the verdict loop
    meets a message that is no text. *)
Theorem process_failure_places (w : world) (tx : Transaction) (e : exn) :
  value_of (process w tx []) = Raise e ->
  (agents_of (process w tx [])
   = [ml_assessment_agent; rule_assessment_agent] /\
   (obind (ml_reply w tx) json_loads = Raise e \/
    exists ml, obind (ml_reply w tx) json_loads = Ok ml /\
               obind (rule_reply w tx) json_loads = Raise e)) \/
  exists ml rule,
    obind (ml_reply w tx) json_loads = Ok ml /\
    obind (rule_reply w tx) json_loads = Ok rule /\
    ((agents_of (process w tx [])
      = [ml_assessment_agent; rule_assessment_agent; coordinator_agent] /\
      obind (coordinator_reply w tx ml rule) py_strip = Raise e) \/
     (agents_of (process w tx [])
      = [ml_assessment_agent; rule_assessment_agent; coordinator_agent;
         decision_agent] /\
      obind (decision_reply w tx ml rule) (decision_result tx ml rule)
      = Raise e) \/
     (agents_of (process w tx [])
      = [ml_assessment_agent; rule_assessment_agent; coordinator_agent;
         explanation_agent] /\
      explanation_reply w tx ml rule = Raise e) \/
     (agents_of (process w tx [])
      = [ml_assessment_agent; rule_assessment_agent; coordinator_agent;
         explanation_agent; react_agent] /\
      e = AttributeError /\
      exists x, explanation_reply w tx ml rule = Ok x /\
                extract (review_history container_str w tx ml rule x)
                = Raise AttributeError)).
Proof.
  unfold value_of, agents_of.
  destruct (process_cases w tx) as
    [e' Hml|ml e' Hml Hrule|ml rule e' Hml Hrule Hco|ml rule Hml Hrule Hco
    |ml rule e' Hml Hrule Hco Hx|ml rule x Hml Hrule Hco Hx
    |ml rule e' Hml Hrule Hco Hx|ml rule x Hml Hrule Hco Hx
    |ml rule next_step Hml Hrule Hco N1 N2 N3];
    cbn [fst snd map recipient ml_chat rule_chat coordinator_chat
         decision_chat explanation_chat review_chat];
    intros Hr; try discriminate.
  - injection Hr as <-. left. split; [reflexivity|]. left. exact Hml.
  - injection Hr as <-. left. split; [reflexivity|]. right.
    exists ml. split; [exact Hml|exact Hrule].
  - injection Hr as <-. right. exists ml, rule.
    split; [exact Hml|]. split; [exact Hrule|].
    left. split; [reflexivity|exact Hco].
  - injection Hr as <-. right. exists ml, rule.
    split; [exact Hml|]. split; [exact Hrule|].
    right. left. split; [reflexivity|]. rewrite Hx. reflexivity.
  - right. exists ml, rule.
    split; [exact Hml|]. split; [exact Hrule|].
    right. left. split; [reflexivity|]. rewrite Hx. exact Hr.
  - injection Hr as <-. right. exists ml, rule.
    split; [exact Hml|]. split; [exact Hrule|].
    right. right. left. split; [reflexivity|exact Hx].
  - right. exists ml, rule.
    split; [exact Hml|]. split; [exact Hrule|].
    right. right. right. unfold review_result in Hr.
    destruct (extract_decision unicode_upper
                (review_history container_str w tx ml rule x))
      as [v|e''] eqn:Hv; cbn [obind] in Hr; [discriminate|].
    injection Hr as <-.
    destruct (proj1 (extract_raises_on_non_text _ _) Hv) as [Ee _].
    split; [reflexivity|]. split; [exact Ee|].
    exists x. split; [exact Hx|]. rewrite <- Ee. exact Hv.
Qed.

(** X4. The opening message decides. When the review history opens with
    the message the review was opened with, as the histories of the
    library do, [process_transaction] reports on the explanation branch
    [final_decision = "approved"] and [process_complete = True], whatever
    the transaction, the assessments and the explanation are and whatever
    is said in the review. *)
Theorem review_opening_message_approves
        (w : world) (tx : Transaction) (ml rule : pyval) (c : str)
        (e : pyval) :
  obind (ml_reply w tx) json_loads = Ok ml ->
  obind (rule_reply w tx) json_loads = Ok rule ->
  coordinator_reply w tx ml rule = Ok (PStr c) ->
  strip c = py "generate_explanation" ->
  explanation_reply w tx ml rule = Ok e ->
  opens_with (review_chat container_str tx ml rule e)
             (review_history container_str w tx ml rule e) = true ->
  field "final_decision" (value_of (process w tx []))
  = Ok (PStr (py "approved")) /\
  field "process_complete" (value_of (process w tx [])) = Ok (PBool true).
Proof.
  intros Hml Hrule Hco Hstep He Hop.
  rewrite (process_branch_explanation unicode_upper container_str w tx ml
             rule c Hml Hrule Hco e Hstep He).
  unfold opens_with in Hop.
  destruct (review_history container_str w tx ml rule e) as [|m rest];
    [discriminate|].
  destruct (dict_find m (py "content")) as [x|] eqn:E; [|discriminate].
  destruct x; try discriminate.
  apply str_eqb_eq in Hop. subst s.
  rewrite (opening_message_decides unicode_upper container_str m rest
             (transaction_dict tx) ml rule e E).
  split; reflexivity.
Qed.

(** X5. The same in the interactive session: when the history opens with
    the session's opening message, the session returns "approved",
    whatever the fraud manager has typed. *)
Theorem session_opening_message_approves
        (w : world) (tx : Transaction) (ml rule e : pyval) :
  obind (session_ml_reply w tx) json_loads = Ok ml ->
  obind (session_rule_reply w tx) json_loads = Ok rule ->
  session_explanation_reply w tx ml rule = Ok e ->
  opens_with (session_review_chat container_str tx ml rule e)
             (session_history container_str w tx ml rule e) = true ->
  value_of (session w tx []) = Ok (py "approved").
Proof.
  intros Hml Hrule He Hop.
  rewrite (session_run unicode_upper container_str w tx ml rule e
             Hml Hrule He).
  unfold opens_with in Hop.
  destruct (session_history container_str w tx ml rule e) as [|m rest];
    [discriminate|].
  destruct (dict_find m (py "content")) as [x|] eqn:E; [|discriminate].
  destruct x; try discriminate.
  apply str_eqb_eq in Hop. subst s.
  exact (session_opening_message_decides unicode_upper container_str m rest
           (transaction_dict tx) ml rule e E).
Qed.

(** X6. The agents of the interactive session. The session talks, as the
    auto proxy, to the ML assessor, the rule assessor and the explanation
    agent, and then, as the fraud manager, to the react agent, in this
    order; it never talks to the coordinator or to the decision agent,
    whatever the assessments say. It returns only after all four chats,
    and an exception leaves it after the chats made so far. *)
Theorem session_agents_in_order (w : world) (tx : Transaction) :
  (agents_of (session w tx [])
   = [ml_assessment_agent; rule_assessment_agent] \/
   agents_of (session w tx [])
   = [ml_assessment_agent; rule_assessment_agent; explanation_agent] \/
   agents_of (session w tx [])
   = [ml_assessment_agent; rule_assessment_agent; explanation_agent;
      react_agent]) /\
  (map sender (snd (session w tx [])) = [auto_proxy; auto_proxy] \/
   map sender (snd (session w tx [])) = [auto_proxy; auto_proxy; auto_proxy] \/
   map sender (snd (session w tx []))
   = [auto_proxy; auto_proxy; auto_proxy; fraud_manager]) /\
  (forall s, value_of (session w tx []) = Ok s ->
     agents_of (session w tx [])
     = [ml_assessment_agent; rule_assessment_agent; explanation_agent;
        react_agent]) /\
  (forall e, value_of (session w tx []) = Raise e ->
     (agents_of (session w tx [])
      = [ml_assessment_agent; rule_assessment_agent] /\
      (obind (session_ml_reply w tx) json_loads = Raise e \/
       exists ml, obind (session_ml_reply w tx) json_loads = Ok ml /\
                  obind (session_rule_reply w tx) json_loads = Raise e)) \/
     exists ml rule,
       obind (session_ml_reply w tx) json_loads = Ok ml /\
       obind (session_rule_reply w tx) json_loads = Ok rule /\
       ((agents_of (session w tx [])
         = [ml_assessment_agent; rule_assessment_agent; explanation_agent] /\
         session_explanation_reply w tx ml rule = Raise e) \/
        (agents_of (session w tx [])
         = [ml_assessment_agent; rule_assessment_agent; explanation_agent;
            react_agent] /\
         e = AttributeError))).
Proof.
  unfold agents_of, value_of.
  destruct (session_cases w tx) as
    [e' Hml|ml e' Hml Hrule|ml rule e' Hml Hrule Hx|ml rule x Hml Hrule Hx];
    cbn [fst snd map recipient sender session_ml_chat session_rule_chat
         session_explanation_chat session_review_chat];
    (split; [tauto|split; [tauto|split]]); intros v Hv; try discriminate;
    try reflexivity.
  - injection Hv as <-. left. split; [reflexivity|]. left. exact Hml.
  - injection Hv as <-. left. split; [reflexivity|]. right.
    exists ml. split; [exact Hml|exact Hrule].
  - injection Hv as <-. right. exists ml, rule.
    split; [exact Hml|]. split; [exact Hrule|].
    left. split; [reflexivity|exact Hx].
  - right. exists ml, rule.
    split; [exact Hml|]. split; [exact Hrule|].
    right. split; [reflexivity|].
    exact (proj1 (proj1 (extract_raises_on_non_text _ _) Hv)).
Qed.


(** Like the transaction history, [get_similar_fraud_cases] returns the same text whatever features
    it is asked about, also through the registered tool in any state. *)
Theorem similar_cases_ignore_features (a b : str) (t : list chat) :
  get_similar_fraud_cases a = get_similar_fraud_cases b /\
  _get_similar_fraud_cases a t = _get_similar_fraud_cases b t.
Proof. split; reflexivity. Qed.

End Beyond.

(* ================================================================== *)
(** ** Beyond the claims: the text of the tools *)

Lemma run_parser_app (p : parser) (a b : str) :
  run_parser p (a ++ b)
  = match run_parser p a with
    | Some p' => run_parser p' b
    | None => None
    end.
Proof.
  revert p. induction a as [|c a IH]; intros p; [reflexivity|].
  cbn [app run_parser]. destruct (step p c); auto.
Qed.

Lemma hex_value_digit (d : N) : d < 16 -> hex_value (hex_digit d) = Some d.
Proof.
  intros H. destruct d as [|p]; [reflexivity|].
  do 4 (destruct p as [p|p|]; try reflexivity; try lia).
Qed.

Lemma nibble_lt (n k : N) : N.land (N.shiftr n k) 15 < 16.
Proof.
  change 15 with (N.ones 4). rewrite N.land_ones.
  apply N.mod_lt. discriminate.
Qed.

Lemma nibble_lt0 (n : N) : N.land n 15 < 16.
Proof.
  change 15 with (N.ones 4). rewrite N.land_ones.
  apply N.mod_lt. discriminate.
Qed.

(** The four hex digits of a code point of the basic plane give it
    back. *)
Lemma nibbles_value (n : N) :
  n < 65536 ->
  4096 * N.land (N.shiftr n 12) 15 + 256 * N.land (N.shiftr n 8) 15
  + 16 * N.land (N.shiftr n 4) 15 + N.land n 15 = n.
Proof.
  intros H. change 15 with (N.ones 4).
  rewrite !N.land_ones, !N.shiftr_div_pow2.
  change (2 ^ 12) with (16 * (16 * 16)). change (2 ^ 8) with (16 * 16).
  change (2 ^ 4) with 16.
  rewrite <- !N.Div0.div_div.
  assert (Hc : n / 16 / 16 / 16 < 16).
  { repeat apply N.Div0.div_lt_upper_bound. exact H. }
  rewrite (N.mod_small _ _ Hc).
  pose proof (N.div_mod n 16 ltac:(discriminate)) as E0.
  pose proof (N.div_mod (n / 16) 16 ltac:(discriminate)) as E1.
  pose proof (N.div_mod (n / 16 / 16) 16 ltac:(discriminate)) as E2.
  generalize dependent (n mod 16). generalize dependent ((n / 16) mod 16).
  generalize dependent ((n / 16 / 16) mod 16).
  generalize dependent (n / 16 / 16 / 16).
  generalize dependent (n / 16 / 16). generalize dependent (n / 16).
  intros. lia.
Qed.

Lemma land_high_low (a k x : N) : x < 2 ^ k -> N.land (N.shiftl a k) x = 0.
Proof.
  intros H. apply N.bits_inj_0. intros i. rewrite N.land_spec.
  destruct (N.lt_ge_cases i k) as [L|G].
  - rewrite N.shiftl_spec_low by exact L. reflexivity.
  - destruct (N.eq_dec x 0) as [->|Nz].
    + rewrite N.bits_0. apply andb_false_r.
    + rewrite (N.bits_above_log2 x i), andb_false_r; [reflexivity|].
      apply N.lt_le_trans with k; [|exact G].
      apply N.log2_lt_pow2; [lia|exact H].
Qed.

Lemma lor_high_low (a k x : N) :
  x < 2 ^ k -> N.lor (N.shiftl a k) x = a * 2 ^ k + x.
Proof.
  intros H. rewrite <- N.lxor_lor by (apply land_high_low; exact H).
  rewrite <- N.add_nocarry_lxor by (apply land_high_low; exact H).
  rewrite N.shiftl_mul_pow2. reflexivity.
Qed.

(** The two surrogates written for a code point above the basic plane are
    a high and a low one, and joined they give the code point back. *)
Lemma surrogate_halves (c : N) :
  65536 <= c -> c < 1114112 ->
  let n := c - 65536 in
  let u1 := N.lor 55296 (N.land (N.shiftr n 10) 1023) in
  let u2 := N.lor 56320 (N.land n 1023) in
  55296 <= u1 /\ u1 <= 56319 /\ 56320 <= u2 /\ u2 <= 57343 /\
  65536 + N.lor (N.shiftl (u1 - 55296) 10) (u2 - 56320) = c.
Proof.
  intros L U n u1 u2.
  assert (Hn : n < 1048576) by (unfold n; lia).
  set (x := N.land (N.shiftr n 10) 1023) in *.
  set (y := N.land n 1023) in *.
  assert (Hx : x = n / 1024).
  { unfold x. change 1023 with (N.ones 10).
    rewrite N.land_ones, N.shiftr_div_pow2. change (2 ^ 10) with 1024.
    apply N.mod_small. apply N.Div0.div_lt_upper_bound. exact Hn. }
  assert (Hy : y = n mod 1024).
  { unfold y. change 1023 with (N.ones 10). apply N.land_ones. }
  assert (Hx' : x < 1024).
  { rewrite Hx. apply N.Div0.div_lt_upper_bound. exact Hn. }
  assert (Hy' : y < 1024).
  { rewrite Hy. apply N.mod_lt. discriminate. }
  assert (E1 : u1 = 55296 + x).
  { unfold u1. change 55296 with (N.shiftl 54 10).
    rewrite lor_high_low by exact Hx'. reflexivity. }
  assert (E2 : u2 = 56320 + y).
  { unfold u2. change 56320 with (N.shiftl 55 10).
    rewrite lor_high_low by exact Hy'. reflexivity. }
  rewrite E1, E2.
  replace (55296 + x - 55296) with x by lia.
  replace (56320 + y - 56320) with y by lia.
  rewrite lor_high_low by exact Hy'. change (2 ^ 10) with 1024.
  pose proof (N.div_mod n 1024 ltac:(discriminate)) as E.
  rewrite <- Hx, <- Hy in E. unfold n in E.
  repeat split; lia.
Qed.

Section InString.

Variables (st : list frame) (pl : place).

Lemma step_hex (acc : str) (high : option N) (ds : list N) (d : N) :
  d < 16 ->
  step (st, pl, InString acc high (Hex ds)) (hex_digit d)
  = match ds with
    | [d1; d2; d3] =>
        Some (st, pl,
              unicode_escape acc high (4096 * d1 + 256 * d2 + 16 * d3 + d))
    | _ => Some (st, pl, InString acc high (Hex (ds ++ [d])))
    end.
Proof.
  intros H. cbn [step step_string]. rewrite (hex_value_digit d H).
  reflexivity.
Qed.

(** Reading a [\uXXXX] escape. *)
Lemma run_u_escape (acc : str) (high : option N) (u : N) (tail : str) :
  u < 65536 ->
  run_parser (st, pl, InString acc high NoEsc) (u_escape u ++ tail)
  = run_parser (st, pl, unicode_escape acc high u) tail.
Proof.
  intros H. unfold u_escape.
  change (run_parser (st, pl, InString acc high NoEsc)
            ([92; 117; hex_digit (N.land (N.shiftr u 12) 15);
              hex_digit (N.land (N.shiftr u 8) 15);
              hex_digit (N.land (N.shiftr u 4) 15);
              hex_digit (N.land u 15)] ++ tail))
    with (run_parser (st, pl, InString acc high (Hex []))
            (hex_digit (N.land (N.shiftr u 12) 15)
             :: hex_digit (N.land (N.shiftr u 8) 15)
             :: hex_digit (N.land (N.shiftr u 4) 15)
             :: hex_digit (N.land u 15) :: tail)).
  cbn [run_parser].
  rewrite step_hex by apply nibble_lt. cbn [app run_parser].
  rewrite step_hex by apply nibble_lt. cbn [app run_parser].
  rewrite step_hex by apply nibble_lt. cbn [app run_parser].
  rewrite step_hex by apply nibble_lt0.
  rewrite (nibbles_value u H). reflexivity.
Qed.

Lemma scalar_bounds (c : N) :
  is_scalar c = true -> c < 1114112 /\ (c < 55296 \/ 57344 <= c).
Proof.
  unfold is_scalar. intros H. apply orb_prop in H as [H|H].
  - apply N.ltb_lt in H. lia.
  - apply andb_prop in H as [H1 H2].
    apply N.leb_le in H1. apply N.ltb_lt in H2. lia.
Qed.

(** Reading what [encode_char] has written for a character gives the
    character. *)
Lemma run_encoded_char (acc : str) (c : N) (tail : str) :
  is_scalar c = true ->
  run_parser (st, pl, InString acc None NoEsc) (encode_char c ++ tail)
  = run_parser (st, pl, InString (c :: acc) None NoEsc) tail.
Proof.
  intros Hs. destruct (scalar_bounds c Hs) as [Hu Hns].
  unfold encode_char.
  destruct (c =? 34) eqn:E34; [apply N.eqb_eq in E34; subst; reflexivity|].
  destruct (c =? 92) eqn:E92; [apply N.eqb_eq in E92; subst; reflexivity|].
  destruct (c =? 10) eqn:E10; [apply N.eqb_eq in E10; subst; reflexivity|].
  destruct (c =? 13) eqn:E13; [apply N.eqb_eq in E13; subst; reflexivity|].
  destruct (c =? 9) eqn:E9; [apply N.eqb_eq in E9; subst; reflexivity|].
  destruct (c =? 8) eqn:E8; [apply N.eqb_eq in E8; subst; reflexivity|].
  destruct (c =? 12) eqn:E12; [apply N.eqb_eq in E12; subst; reflexivity|].
  destruct ((32 <=? c) && (c <=? 126)) eqn:P.
  - apply andb_prop in P as [P1 P2]. apply N.leb_le in P1.
    cbn [app run_parser step step_string]. rewrite E34, E92.
    replace (c <? 32) with false by (symmetry; apply N.ltb_ge; exact P1).
    reflexivity.
  - destruct (c <? 65536) eqn:B.
    + apply N.ltb_lt in B. rewrite (run_u_escape acc None c tail B).
      unfold unicode_escape, is_high_surrogate.
      replace ((55296 <=? c) && (c <=? 56319)) with false; [reflexivity|].
      symmetry. apply andb_false_iff.
      destruct Hns as [Hl|Hh]; [left; apply N.leb_gt; exact Hl|].
      right. apply N.leb_gt. lia.
    + apply N.ltb_ge in B.
      destruct (surrogate_halves c B Hu) as (H1 & H2 & H3 & H4 & Hj).
      cbv zeta in H1, H2, H3, H4, Hj.
      rewrite <- app_assoc.
      rewrite run_u_escape by lia.
      unfold unicode_escape at 1. unfold is_high_surrogate.
      replace ((55296 <=? N.lor 55296 (N.land (N.shiftr (c - 65536) 10) 1023))
               && (N.lor 55296 (N.land (N.shiftr (c - 65536) 10) 1023)
                   <=? 56319)) with true
        by (symmetry; apply andb_true_iff; split; apply N.leb_le; assumption).
      rewrite run_u_escape by lia.
      unfold unicode_escape, is_low_surrogate.
      replace ((56320 <=? N.lor 56320 (N.land (c - 65536) 1023))
               && (N.lor 56320 (N.land (c - 65536) 1023) <=? 57343)) with true
        by (symmetry; apply andb_true_iff; split; apply N.leb_le; assumption).
      rewrite Hj. reflexivity.
Qed.

(** ... and so for a whole string. *)
Lemma run_encoded_string (s acc tail : str) :
  forallb is_scalar s = true ->
  run_parser (st, pl, InString acc None NoEsc)
             (flat_map encode_char s ++ tail)
  = run_parser (st, pl, InString (rev s ++ acc) None NoEsc) tail.
Proof.
  revert acc. induction s as [|c s IH]; intros acc H; [reflexivity|].
  cbn [forallb] in H. apply andb_prop in H as [Hc H].
  cbn [flat_map rev]. rewrite <- !app_assoc.
  rewrite (run_encoded_char acc c _ Hc). rewrite (IH _ H). reflexivity.
Qed.

End InString.

(** A string of characters comes back from its JSON text as it was. *)
Lemma decode_encoded_string (s : str) :
  forallb is_scalar s = true -> decode (encode_string s) = Ok (PStr s).
Proof.
  intros H. unfold decode, encode_string, dq.
  change (run_parser ([], AtValue, Idle)
            ([34] ++ flat_map encode_char s ++ [34]))
    with (run_parser ([], AtValue, InString [] None NoEsc)
            (flat_map encode_char s ++ [34])).
  rewrite (run_encoded_string [] AtValue s [] [34] H).
  cbn [run_parser step step_string flush string_done value_done idle at_eof].
  change (34 =? 34) with true. cbv iota.
  cbn [run_parser step step_string flush string_done value_done idle at_eof].
  rewrite app_nil_r, rev_involutive. reflexivity.
Qed.

(** The text of a profile is the same text around the account id,
    whatever the id. *)
Lemma profile_text (account_id : str) :
  get_user_profile account_id
  = profile_prefix
    ++ (dq ++ flat_map encode_char account_id ++ dq) ++ profile_rest.
Proof. reflexivity. Qed.

Lemma profile_prefix_read :
  run_parser ([], AtValue, Idle) profile_prefix
  = Some ([FDictKey [] (py "account_id")], AtValue, Idle).
Proof. vm_compute. reflexivity. Qed.

Lemma profile_rest_read (account_id : str) :
  run_parser ([FDict [(py "account_id", PStr account_id)]], AfterValue, Idle)
             profile_rest
  = Some ([], AtEnd (user_profile account_id), Idle).
Proof. vm_compute. reflexivity. Qed.

Lemma open_quote (st : list frame) (tail : str) :
  run_parser (st, AtValue, Idle) ([34] ++ tail)
  = run_parser (st, AtValue, InString [] None NoEsc) tail.
Proof. reflexivity. Qed.

Lemma close_quote (done : pydict) (k : str) (r : list frame)
      (acc tail : str) :
  run_parser (FDictKey done k :: r, AtValue, InString acc None NoEsc)
             ([34] ++ tail)
  = run_parser (FDict (dict_set done k (PStr (rev acc))) :: r,
                AfterValue, Idle) tail.
Proof. reflexivity. Qed.

(** The text of a profile decodes to the profile. *)
Lemma profile_decodes (account_id : str) :
  forallb is_scalar account_id = true ->
  decode (get_user_profile account_id) = Ok (user_profile account_id).
Proof.
  intros Hx. unfold decode. rewrite profile_text.
  rewrite run_parser_app, profile_prefix_read.
  generalize (profile_rest_read account_id). generalize profile_rest.
  intros R HR.
  unfold dq. rewrite <- !app_assoc. rewrite open_quote.
  rewrite (run_encoded_string _ _ account_id [] _ Hx).
  rewrite app_nil_r, close_quote, rev_involutive.
  cbn [dict_set]. rewrite HR. reflexivity.
Qed.

(** X12. The profile names its account. For an account id made of
    characters (no lone surrogate code points), the text that
    [get_user_profile] returns is a JSON text that decodes to the profile
    dict, whose [account_id] is the id asked for; two different ids
    therefore never get the same text. *)
Theorem profile_names_its_account (account_id : str) :
  forallb is_scalar account_id = true ->
  json_loads (PStr (get_user_profile account_id))
  = Ok (user_profile account_id) /\
  field "account_id" (json_loads (PStr (get_user_profile account_id)))
  = Ok (PStr account_id) /\
  (forall other,
      forallb is_scalar other = true ->
      get_user_profile other = get_user_profile account_id ->
      other = account_id).
Proof.
  intros H. cbn [json_loads]. rewrite (profile_decodes _ H).
  split; [reflexivity|]. split; [reflexivity|].
  intros other Ho E.
  pose proof (profile_decodes _ Ho) as Do.
  rewrite E, (profile_decodes _ H) in Do.
  injection Do as Do. symmetry. exact Do.
Qed.

(* ================================================================== *)
(** ** The further properties at concrete inputs *)

(** A JSON text cannot tell two surrogate code points from the character
    they encode: an account id of two lone surrogates comes back as one
    character, and two different ids get the same profile text. *)
Example lone_surrogates_do_not_come_back :
  field "account_id" (json_loads (PStr (get_user_profile [55357; 56832])))
  = Ok (PStr [128512]) /\
  get_user_profile [55357; 56832] = get_user_profile [128512].
Proof. vm_compute. split; reflexivity. Qed.

Lemma process_result_shape_witness :
  exists complete : bool,
    field "process_complete"
          (value_of (run_process world_decision_maybe
                                 example_transaction_realtime))
    = Ok (PBool complete) /\
    field "transaction"
          (value_of (run_process world_decision_maybe
                                 example_transaction_realtime))
    = Ok (transaction_dict example_transaction_realtime).
Proof.
  destruct (process_result_shape
              latin1_upper no_container_str world_decision_maybe
              example_transaction_realtime
              (the (value_of (run_process world_decision_maybe
                                          example_transaction_realtime))))
    as (ml & rule & complete & _ & _ & Ht & _ & _ & Hc & _);
    [vm_compute; reflexivity|].
  exists complete. split; [exact Hc|exact Ht].
Defined.

Lemma process_failure_places_witness :
  value_of (run_process world_ml_prose example_transaction_realtime)
  = Raise JSONDecodeError /\
  agents_of (run_process world_ml_prose example_transaction_realtime)
  = [ml_assessment_agent; rule_assessment_agent].
Proof.
  split; [vm_compute; reflexivity|].
  destruct (process_failure_places
              latin1_upper no_container_str world_ml_prose
              example_transaction_realtime JSONDecodeError)
    as [[Ha _]|(ml & rule & Hml & _)]; [vm_compute; reflexivity| |].
  - exact Ha.
  - vm_compute in Hml. discriminate Hml.
Defined.

Lemma review_opening_message_approves_witness :
  map (holds_verdict latin1_upper) review_ended = [false; false] /\
  field "final_decision"
        (value_of (run_process (world_review review_ended)
                               example_transaction_manual))
  = Ok (PStr (py "approved")) /\
  field "process_complete"
        (value_of (run_process (world_review review_ended)
                               example_transaction_manual))
  = Ok (PBool true).
Proof.
  split; [vm_compute; reflexivity|].
  apply (review_opening_message_approves
           latin1_upper no_container_str (world_review review_ended)
           example_transaction_manual
           (ml_of (world_review review_ended) example_transaction_manual)
           (rule_of (world_review review_ended) example_transaction_manual)
           (py "generate_explanation")
           (PStr (py "Hoher Betrag an einen neuen Empfaenger zu ungewohnter Zeit.")));
    vm_compute; reflexivity.
Defined.

Lemma session_opening_message_approves_witness :
  map (holds_verdict latin1_upper) review_declined = [false; false; true] /\
  value_of (run_session (world_review review_declined)
                        example_transaction_manual)
  = Ok (py "approved").
Proof.
  split; [vm_compute; reflexivity|].
  apply (session_opening_message_approves
           latin1_upper no_container_str (world_review review_declined)
           example_transaction_manual
           (ml_of (world_review review_declined) example_transaction_manual)
           (rule_of (world_review review_declined) example_transaction_manual)
           (PStr (py "Hoher Betrag an einen neuen Empfaenger zu ungewohnter Zeit.")));
    vm_compute; reflexivity.
Defined.

Lemma later_messages_are_not_read_witness :
  extract_decision latin1_upper review_reconsidered
  = extract_decision latin1_upper
      [said "assistant" "Fraud_Manager" "Ablehnen"] /\
  extract_decision latin1_upper review_reconsidered = Ok (py "declined").
Proof.
  split; [|vm_compute; reflexivity].
  apply (later_messages_are_not_read
           latin1_upper []
           [said "user" "react_agent" "Die Transaktion wird abgelehnt.";
            said "assistant" "Fraud_Manager" "Doch lieber GENEHMIGEN"]
           (said "assistant" "Fraud_Manager" "Ablehnen")).
  vm_compute. reflexivity.
Defined.

Lemma verdict_of_first_decisive_message_witness :
  extract_decision latin1_upper
    (said "user" "react_agent" "Das Konto besteht seit 730 Tagen."
     :: review_reconsidered)
  = Ok (py "declined").
Proof.
  apply (proj2 (proj2 (verdict_of_first_decisive_message latin1_upper _))).
  exists [said "user" "react_agent" "Das Konto besteht seit 730 Tagen."],
    (said "assistant" "Fraud_Manager" "Ablehnen"),
    [said "user" "react_agent" "Die Transaktion wird abgelehnt.";
     said "assistant" "Fraud_Manager" "Doch lieber GENEHMIGEN"].
  vm_compute. repeat split.
Defined.

Lemma extract_raises_on_non_text_witness :
  extract_decision latin1_upper
    [said "assistant" "Fraud_Manager" "Wie alt ist das Konto?"; tool_call;
     said "assistant" "Fraud_Manager" "ABLEHNEN"]
  = Raise AttributeError.
Proof.
  apply (proj2 (extract_raises_on_non_text latin1_upper _ _)).
  split; [reflexivity|].
  exists [said "assistant" "Fraud_Manager" "Wie alt ist das Konto?"],
    tool_call, [said "assistant" "Fraud_Manager" "ABLEHNEN"].
  vm_compute. repeat split.
Defined.

Lemma profile_names_its_account_witness :
  forallb is_scalar (py "DE55 Ä" ++ [128512; 34; 92; 10]) = true /\
  field "account_id"
        (json_loads
           (PStr (get_user_profile (py "DE55 Ä" ++ [128512; 34; 92; 10]))))
  = Ok (PStr (py "DE55 Ä" ++ [128512; 34; 92; 10])).
Proof.
  split; [vm_compute; reflexivity|].
  apply (profile_names_its_account (py "DE55 Ä" ++ [128512; 34; 92; 10])).
  vm_compute. reflexivity.
Defined.
